(** * The passwordless login route ([app/routes/login.tsx])

    A shallow embedding of the [loader] and [action] of the login route and
    of the private helper [isEmailVerified], together with the properties
    the route's specification states about them.

    The handler is a straight line of awaited calls on collaborators (the
    cookie session, the e-mail verifier, the database, the mailing list and
    the token sender) with two [try]/[catch] blocks.  It is embedded in a
    small monad that threads the mutable login session and a trace of the
    collaborator calls, and in which a computation either returns or throws;
    what was written to the session before a throw is still there when the
    exception is caught, as in JavaScript. *)

From Stdlib Require Import List NArith Bool Ascii String Lia.
Import ListNotations.

(** ** JavaScript strings *)

(** A JavaScript string is a sequence of UTF-16 code units. *)
Definition jsstring : Type := list N.

Module JsString.

(** A string literal of the source (all of them are ASCII). *)
Definition lit (s : string) : jsstring :=
  map N_of_ascii (list_ascii_of_string s).

Definition eqb (a b : jsstring) : bool :=
  if list_eq_dec N.eq_dec a b then true else false.

(** Truthiness of a string: only the empty string is falsy. *)
Definition truthy (s : jsstring) : bool :=
  match s with [] => false | _ :: _ => true end.

(** The code unit of [@]. *)
Definition at_sign : N := 64.

(** [LineTerminator] of ECMAScript: LF, CR, LS and PS.  The pattern
    character [.] (without the [s] flag) matches every code unit but
    these. *)
Definition is_line_terminator (c : N) : bool :=
  N.eqb c 10 || N.eqb c 13 || N.eqb c 8232 || N.eqb c 8233.

End JsString.

(** ** The regular expression of the e-mail check *)

Module Regex.

(** The fragment of the pattern language that [/.+@.+/] uses. *)
Inductive t : Type :=
| Dot : t                 (* .   *)
| Chr : N -> t            (* a literal code unit *)
| Seq : t -> t -> t       (* r1 r2 *)
| Plus : t -> t.          (* r+  *)

(** [Matches r w]: the pattern [r] matches exactly the word [w]. *)
Inductive Matches : t -> jsstring -> Prop :=
| MDot c : JsString.is_line_terminator c = false -> Matches Dot [c]
| MChr c : Matches (Chr c) [c]
| MSeq r1 r2 w1 w2 :
    Matches r1 w1 -> Matches r2 w2 -> Matches (Seq r1 r2) (w1 ++ w2)
| MPlusOne r w : Matches r w -> Matches (Plus r) w
| MPlusMore r w1 w2 :
    Matches r w1 -> Matches (Plus r) w2 -> Matches (Plus r) (w1 ++ w2).

(** [String.prototype.match] with a pattern that has no flag and no anchor
    yields a match (a truthy array) exactly when some substring of the
    subject is matched by the pattern, and [null] otherwise. *)
Definition Found (r : t) (s : jsstring) : Prop :=
  exists pre w post, s = pre ++ w ++ post /\ Matches r w.

(** [/.+@.+/] *)
Definition email_pattern : t :=
  Seq (Plus Dot) (Seq (Chr JsString.at_sign) (Plus Dot)).

End Regex.

(** [emailAddress.match(/.+@.+/)] as a truth value: the subject is scanned
    for an [@] that stands between two code units which [.] matches.  (The
    two [.+] can always be cut down to one code unit each, so nothing more
    has to be looked at; [email_match_spec] below proves the scan against the
    semantics of the pattern.) *)
Fixpoint email_match (s : jsstring) : bool :=
  match s with
  | [] => false
  | x :: rest =>
      match rest with
      | a :: y :: _ =>
          (negb (JsString.is_line_terminator x)
           && N.eqb a JsString.at_sign
           && negb (JsString.is_line_terminator y))
          || email_match rest
      | _ => false
      end
  end.

(** The wording of the specification for the same check: the string
    "contains an [@] with non-empty text on both sides". *)
Definition at_between_text (s : jsstring) : Prop :=
  exists pre post,
    pre <> [] /\ post <> [] /\ s = pre ++ [JsString.at_sign] ++ post.

(** The same, as a test. *)
Fixpoint at_between_textb (s : jsstring) : bool :=
  match s with
  | [] => false
  | _ :: rest =>
      match rest with
      | a :: _ :: _ => N.eqb a JsString.at_sign || at_between_textb rest
      | _ => false
      end
  end.

(** ** Requests, sessions and responses *)

(** [FormDataEntryValue]: a form field holds a string or an uploaded file. *)
Inductive FormDataEntryValue : Type :=
| EntryString (s : jsstring)
| EntryFile.

(** A form body is a list of entries; a name may occur several times. *)
Definition FormData : Type := list (jsstring * FormDataEntryValue).

(** [formData.get(name)]: the value of the first entry of that name, [null]
    ([None]) when there is none. *)
Fixpoint formData_get (fd : FormData) (name : jsstring)
  : option FormDataEntryValue :=
  match fd with
  | [] => None
  | (k, v) :: rest =>
      if JsString.eqb k name then Some v else formData_get rest name
  end.

(** [Boolean(formData.get(name))]: [null] and the empty string are falsy, a
    non-empty string and a [File] object are truthy. *)
Definition entry_truthy (v : option FormDataEntryValue) : bool :=
  match v with
  | None => false
  | Some (EntryString s) => JsString.truthy s
  | Some EntryFile => true
  end.

Module LoginSession.

(** Modelled from the spec: [app/utils/login.server.ts] is missing.  The
    login session is cookie-backed and carries three optional strings. *)
Record t : Type := mk {
  email : option jsstring;
  error : option jsstring;
  magicLink : option jsstring
}.

Definition empty : t := mk None None None.

Definition with_email (v : jsstring) (s : t) : t :=
  mk (Some v) (error s) (magicLink s).

Definition with_error (v : option jsstring) (s : t) : t :=
  mk (email s) v (magicLink s).

Definition with_magicLink (v : jsstring) (s : t) : t :=
  mk (email s) (error s) (Some v).

End LoginSession.

(** The value of a header.  The value of [Set-Cookie] is the serialized
    session; the serialization belongs to the session store and is opaque, so
    the header carries the session as it was when it was serialized. *)
Inductive HeaderValue : Type :=
| Text (v : jsstring)
| Cookie (s : LoginSession.t).

Definition Headers : Type := list (jsstring * HeaderValue).

(** [headers.get(name)] *)
Fixpoint headers_get (h : Headers) (name : jsstring) : option HeaderValue :=
  match h with
  | [] => None
  | (k, v) :: rest =>
      if JsString.eqb k name then Some v else headers_get rest name
  end.

(** [headers.set(name, value)]: one entry of that name is left. *)
Definition headers_set (h : Headers) (name : jsstring) (v : HeaderValue)
  : Headers :=
  filter (fun kv => negb (JsString.eqb (fst kv) name)) h ++ [(name, v)].

(** [headers.append(name, value)] *)
Definition headers_append (h : Headers) (name : jsstring) (v : HeaderValue)
  : Headers :=
  h ++ [(name, v)].

Record Request : Type := mkRequest {
  (** the decoded body, [await request.formData()] *)
  req_formData : FormData;
  (** the login session that the [Cookie] header of the request decodes to *)
  req_loginSession : LoginSession.t;
  (** the other headers of the request *)
  req_headers : list (jsstring * jsstring)
}.

(** The data the loader hands to the page. *)
Record LoginData : Type := mkLoginData {
  data_email : option jsstring;
  data_error : option jsstring
}.

Record Response : Type := mkResponse {
  status : N;
  headers : Headers;
  body : option LoginData
}.

(** The [ResponseInit] argument of [redirect] and [json]. *)
Record ResponseInit : Type := mkInit {
  init_status : option N;
  init_headers : Headers
}.

(** [redirect(url, init)] of the framework: the status defaults to 302 and
    the [Location] header is set to the target. *)
Definition redirect (url : jsstring) (init : ResponseInit) : Response :=
  {| status := match init_status init with Some s => s | None => 302%N end;
     headers := headers_set (init_headers init) (JsString.lit "Location") (Text url);
     body := None |}.

(** [json(data, init)] of the framework: the status defaults to 200 and the
    content type is set unless the caller gave one. *)
Definition json (data : LoginData) (init : ResponseInit) : Response :=
  {| status := match init_status init with Some s => s | None => 200%N end;
     headers :=
       match headers_get (init_headers init) (JsString.lit "Content-Type") with
       | Some _ => init_headers init
       | None =>
           headers_set (init_headers init) (JsString.lit "Content-Type")
             (Text (JsString.lit "application/json; charset=utf-8"))
       end;
     body := Some data |}.

(** ** Collaborators *)

(** What a [throw] carries: the error of a failed [invariant], an [Error]
    object thrown by a collaborator, or any other thrown value. *)
Inductive Thrown : Type :=
| InvariantFailed (message : jsstring)
| ThrownError (message : jsstring)
| ThrownValue (v : jsstring).

(** The outcome of awaiting a call. *)
Inductive Result (A : Type) : Type :=
| Returns (a : A)
| Throws (e : Thrown).
Arguments Returns {A} a.
Arguments Throws {A} e.

(** The answer of the verification service: [{ status: true, ... }] or
    [{ status: false, error: { message } }]. *)
Inductive VerifierResult : Type :=
| StatusTrue
| StatusFalse (message : jsstring).

(** A row of the [user] table restricted to [select: { id: true }]. *)
Record UserId : Type := mkUserId { id : jsstring }.

(** The modules the route imports and that are outside this development:
    each is a function from its arguments to the outcome of the call. *)
Record Collaborators : Type := mkCollaborators {
  (** [verifyEmailAddress(email)] of [utils/verifier.server.ts] *)
  verifyEmailAddress : jsstring -> Result VerifierResult;
  (** [prisma.user.findUnique({ select: { id: true }, where: { email } })] *)
  findUnique : jsstring -> Result (option UserId);
  (** [getConvertKitSubscriber(email)]; [None] is a falsy answer *)
  getConvertKitSubscriber : jsstring -> Result (option jsstring);
  (** [getDomainUrl(request)] of [utils/misc.tsx] *)
  getDomainUrl : Request -> Result jsstring;
  (** [sendToken({ emailAddress, domainUrl })] of [utils/session.server.ts] *)
  sendToken : jsstring -> jsstring -> Result jsstring;
  (** [getErrorMessage(e)] of [utils/misc.tsx] *)
  getErrorMessage : Thrown -> jsstring;
  (** [getUser(request)] of [utils/session.server.ts]; [None] is [null] *)
  getUser : Request -> Result (option UserId)
}.

(** What the handler does to the outside, in the order it does it. *)
Inductive Event : Type :=
| CallVerifyEmailAddress (email : jsstring)
| CallFindUnique (email : jsstring)
| CallGetConvertKitSubscriber (email : jsstring)
| CallGetDomainUrl
| CallSendToken (emailAddress domainUrl : jsstring)
| CallGetUser
| SetEmail (email : jsstring)
| FlashError (message : jsstring)
| SetMagicLink (magicLink : jsstring)
| GetHeaders
| ConsoleInfo (message : jsstring) (fields : FormData)
| ConsoleError (message : jsstring) (e : Thrown).

(** ** The monad of a handler *)

Record State : Type := mkState {
  session : LoginSession.t;
  trace : list Event
}.

Definition M (A : Type) : Type := State -> Result A * State.

Definition ret {A} (a : A) : M A := fun st => (Returns a, st).

Definition bind {A B} (m : M A) (k : A -> M B) : M B :=
  fun st =>
    match m st with
    | (Returns a, st') => k a st'
    | (Throws e, st') => (Throws e, st')
    end.

Definition throw {A} (e : Thrown) : M A := fun st => (Throws e, st).

(** [try { body } catch (e) { handler }]: the state the body left when it
    threw is the state the handler starts from. *)
Definition try_catch {A} (body : M A) (handler : Thrown -> M A) : M A :=
  fun st =>
    match body st with
    | (Returns a, st') => (Returns a, st')
    | (Throws e, st') => handler e st'
    end.

Definition emit (ev : Event) : M unit :=
  fun st => (Returns tt, {| session := session st; trace := trace st ++ [ev] |}).

Definition modify_session (f : LoginSession.t -> LoginSession.t) : M unit :=
  fun st => (Returns tt, {| session := f (session st); trace := trace st |}).

Definition read_session : M LoginSession.t :=
  fun st => (Returns (session st), st).

(** Awaiting a collaborator: the call is recorded, then it returns or
    throws. *)
Definition await {A} (ev : Event) (r : Result A) : M A :=
  fun st =>
    (r, {| session := session st; trace := trace st ++ [ev] |}).

Declare Scope handler_scope.
Delimit Scope handler_scope with handler.
Notation "x <- m ;; k" := (bind m (fun x => k))
  (at level 61, m at next level, right associativity) : handler_scope.
Notation "m ;; k" := (bind m (fun _ => k))
  (at level 61, right associativity) : handler_scope.
Local Open Scope handler_scope.

(** ** The login session object *)

(** Modelled from the spec: [getLoginInfoSession] and the methods of the
    object it returns live in [app/utils/login.server.ts], which is missing.
    The session is created per request from the cookie, mutated by
    [setEmail], [flashError] and [setMagicLink], and serialized into a
    [Set-Cookie] header by [getHeaders]. *)
Definition getLoginInfoSession (request : Request) : M unit :=
  modify_session (fun _ => req_loginSession request).

(** Modelled from the spec: [setEmail] of the missing session object; the
    [email] field becomes the given string. *)
Definition setEmail (email : jsstring) : M unit :=
  emit (SetEmail email) ;;
  modify_session (LoginSession.with_email email).

(** Modelled from the spec: [flashError] of the missing session object; the
    [error] field becomes the given message. *)
Definition flashError (message : jsstring) : M unit :=
  emit (FlashError message) ;;
  modify_session (LoginSession.with_error (Some message)).

(** Modelled from the spec: [setMagicLink] of the missing session object;
    the [magicLink] field becomes the given link. *)
Definition setMagicLink (magicLink : jsstring) : M unit :=
  emit (SetMagicLink magicLink) ;;
  modify_session (LoginSession.with_magicLink magicLink).

(** Modelled from the spec: [getEmail] of the missing session object. *)
Definition getEmail : M (option jsstring) :=
  s <- read_session ;; ret (LoginSession.email s).

(** Modelled from the spec: [getError] of the missing session object; a
    flashed value is gone once it has been read. *)
Definition getError : M (option jsstring) :=
  s <- read_session ;;
  modify_session (LoginSession.with_error None) ;;
  ret (LoginSession.error s).

(** Modelled from the spec: [getHeaders] of the missing session object; the
    session is serialized into a [Set-Cookie] header, which is added to the
    headers given (a fresh [Headers] when none is given). *)
Definition getHeaders (headers : Headers) : M Headers :=
  emit GetHeaders ;;
  s <- read_session ;;
  ret (headers_append headers (JsString.lit "Set-Cookie") (Cookie s)).

(** ** The route *)

(** The text flashed when the address is not verified, a template literal
    around the message of the verifier (code unit 34 is the double quote). *)
Definition not_verified_prefix : jsstring :=
  JsString.lit "I tried to verify that email and got this error message: " ++ [34%N].

Definition not_verified_suffix : jsstring :=
  [34%N] ++ JsString.lit ". If you think this is wrong, sign up for Kent's mailing list first (using the form on the bottom of the page) and once that's confirmed you'll be able to sign up.".

Definition not_verified_message (message : jsstring) : jsstring :=
  not_verified_prefix ++ message ++ not_verified_suffix.

(** The result type of [isEmailVerified]:
    [{ verified: true } | { verified: false; message: string }]. *)
Inductive VerifiedStatus : Type :=
| Verified
| NotVerified (message : jsstring).

Section Route.

Variable W : Collaborators.

(** [async function isEmailVerified(email)] *)
Definition isEmailVerified (email : jsstring) : M VerifiedStatus :=
  verifierResult <- await (CallVerifyEmailAddress email) (verifyEmailAddress W email) ;;
  match verifierResult with
  | StatusTrue => ret Verified
  | StatusFalse message =>
      user <- await (CallFindUnique email) (findUnique W email) ;;
      let userExists := match user with Some _ => true | None => false end in
      if userExists then ret Verified
      else
        convertKitSubscriber <-
          await (CallGetConvertKitSubscriber email) (getConvertKitSubscriber W email) ;;
        match convertKitSubscriber with
        | Some _ => ret Verified
        | None => ret (NotVerified message)
        end
  end.

(** [export async function action({ request })], on a request whose body
    has been decoded ([Handler.action_on_body] below puts line 75, which can
    reject, in front of it).  The two [try] blocks follow one another; the
    first one hands back [Some response] when it returns from the handler
    and [None] when control falls through to the second. *)
Definition action (request : Request) : M Response :=
  let formData := req_formData request in
  getLoginInfoSession request ;;
  let emailAddress := formData_get formData (JsString.lit "email") in
  match emailAddress with
  | Some (EntryString emailAddress) =>
      (if JsString.truthy emailAddress then setEmail emailAddress else ret tt) ;;
      if negb (email_match emailAddress) then
        flashError (JsString.lit "A valid email is required") ;;
        h <- getHeaders [] ;;
        ret (redirect (JsString.lit "/login") (mkInit (Some 400%N) h))
      else
        let failedHoneypot :=
          entry_truthy (formData_get formData (JsString.lit "password")) in
        if failedHoneypot then
          emit (ConsoleInfo (JsString.lit "FAILED HONEYPOT ON LOGIN") formData) ;;
          h <- getHeaders [] ;;
          ret (redirect (JsString.lit "/login") (mkInit None h))
        else
          returned <-
            try_catch
              (verifiedStatus <- isEmailVerified emailAddress ;;
               match verifiedStatus with
               | NotVerified message =>
                   let errorMessage := not_verified_message message in
                   flashError errorMessage ;;
                   h <- getHeaders [] ;;
                   ret (Some (redirect (JsString.lit "/login") (mkInit (Some 400%N) h)))
               | Verified => ret None
               end)
              (fun error =>
                 emit (ConsoleError
                         (JsString.lit "There was an error verifying an email address:")
                         error) ;;
                 ret None) ;;
          match returned with
          | Some response => ret response
          | None =>
              try_catch
                (domainUrl <- await CallGetDomainUrl (getDomainUrl W request) ;;
                 magicLink <-
                   await (CallSendToken emailAddress domainUrl)
                     (sendToken W emailAddress domainUrl) ;;
                 setMagicLink magicLink ;;
                 h <- getHeaders [] ;;
                 ret (redirect (JsString.lit "/login") (mkInit None h)))
                (fun e =>
                   flashError (getErrorMessage W e) ;;
                   h <- getHeaders [] ;;
                   ret (redirect (JsString.lit "/login") (mkInit (Some 400%N) h)))
          end
  | _ =>
      (* invariant(typeof emailAddress === 'string', ...) *)
      throw (InvariantFailed (JsString.lit "Form submitted incorrectly"))
  end.

(** [export async function loader({ request })] *)
Definition loader (request : Request) : M Response :=
  user <- await CallGetUser (getUser W request) ;;
  match user with
  | Some _ => ret (redirect (JsString.lit "/me") (mkInit None []))
  | None =>
      getLoginInfoSession request ;;
      let headers : Headers :=
        [ (JsString.lit "Cache-Control", Text (JsString.lit "private, max-age=3600"));
          (JsString.lit "Vary", Text (JsString.lit "Cookie")) ] in
      headers <- getHeaders headers ;;
      email <- getEmail ;;
      error <- getError ;;
      ret (json (mkLoginData email error) (mkInit None headers))
  end.

End Route.

(** Running a handler on a request: nothing has happened yet and the session
    object does not exist before [getLoginInfoSession] makes it. *)
Definition initial : State := mkState LoginSession.empty [].

Definition run {A} (m : M A) : Result A * State := m initial.

(** The session that a response hands to the browser in [Set-Cookie]; the
    next request of that browser brings it back. *)
Definition cookie_of (r : Response) : option LoginSession.t :=
  match headers_get (headers r) (JsString.lit "Set-Cookie") with
  | Some (Cookie s) => Some s
  | _ => None
  end.

Definition location_of (r : Response) : option HeaderValue :=
  headers_get (headers r) (JsString.lit "Location").

(** ** Observations on a run *)

(** The form fields the handler reads. *)
Definition email_field (request : Request) : option FormDataEntryValue :=
  formData_get (req_formData request) (JsString.lit "email").

Definition password_field (request : Request) : option FormDataEntryValue :=
  formData_get (req_formData request) (JsString.lit "password").

(** The response of every returning path of [action]: a redirect to
    [/login] whose headers are those [getHeaders()] made of the session. *)
Definition login_redirect (code : option N) (s : LoginSession.t) : Response :=
  redirect (JsString.lit "/login")
    (mkInit code [(JsString.lit "Set-Cookie", Cookie s)]).

(** [answers W request code st]: the handler returns, its response is a
    redirect to [/login] of status [code] whose [Set-Cookie] is the session
    as the handler leaves it, and the run ends in [st]. *)
Definition answers (W : Collaborators) (request : Request) (code : N)
    (st : State) : Prop :=
  exists response,
    run (action W request) = (Returns response, st)
    /\ status response = code
    /\ location_of response = Some (Text (JsString.lit "/login"))
    /\ cookie_of response = Some (session st).

(** What [isEmailVerified] answers and which calls it makes: neither depends
    on the state it is run in ([isEmailVerified_run]). *)
Definition verdict (W : Collaborators) (email : jsstring) : Result VerifiedStatus :=
  fst (isEmailVerified W email initial).

Definition verification_calls (W : Collaborators) (email : jsstring) : list Event :=
  trace (snd (isEmailVerified W email initial)).

(** The first [try] block lets the handler go on to the token unless
    [isEmailVerified] answered [{ verified: false }]. *)
Definition passes_verification (W : Collaborators) (email : jsstring) : bool :=
  match verdict W email with
  | Returns (NotVerified _) => false
  | Returns Verified | Throws _ => true
  end.

(** What the [catch] of the first block logs. *)
Definition verification_log (W : Collaborators) (email : jsstring) : list Event :=
  match verdict W email with
  | Throws e =>
      [ConsoleError (JsString.lit "There was an error verifying an email address:") e]
  | Returns _ => []
  end.

(** The same collaborators with another verification service. *)
Definition with_verifier (W : Collaborators)
    (f : jsstring -> Result VerifierResult) : Collaborators :=
  {| verifyEmailAddress := f;
     findUnique := findUnique W;
     getConvertKitSubscriber := getConvertKitSubscriber W;
     getDomainUrl := getDomainUrl W;
     sendToken := sendToken W;
     getErrorMessage := getErrorMessage W;
     getUser := getUser W |}.

Definition is_collaborator_call (ev : Event) : bool :=
  match ev with
  | CallVerifyEmailAddress _ | CallFindUnique _ | CallGetConvertKitSubscriber _
  | CallGetDomainUrl | CallSendToken _ _ | CallGetUser => true
  | _ => false
  end.

Definition is_verify_call (ev : Event) : bool :=
  match ev with CallVerifyEmailAddress _ => true | _ => false end.

Definition is_flash_error (ev : Event) : bool :=
  match ev with FlashError _ => true | _ => false end.

Definition is_set_magic_link (ev : Event) : bool :=
  match ev with SetMagicLink _ => true | _ => false end.

Definition is_get_headers (ev : Event) : bool :=
  match ev with GetHeaders => true | _ => false end.

Definition is_console (ev : Event) : bool :=
  match ev with ConsoleInfo _ _ | ConsoleError _ _ => true | _ => false end.

(** Collaborators for the examples: the verification service answers [v],
    the database and the mailing list know nobody, and nothing throws. *)
Definition quiet (v : VerifierResult) : Collaborators :=
  {| verifyEmailAddress := fun _ => Returns v;
     findUnique := fun _ => Returns None;
     getConvertKitSubscriber := fun _ => Returns None;
     getDomainUrl := fun _ => Returns (JsString.lit "https://solofoundershub.com");
     sendToken := fun _ d => Returns (d ++ JsString.lit "/magic?kodyKey=abc");
     getErrorMessage := fun e =>
       match e with
       | InvariantFailed m | ThrownError m | ThrownValue m => m
       end;
     getUser := fun _ => Returns None |}.

(** Collaborators whose token sender is down. *)
Definition no_mail (e : Thrown) : Collaborators :=
  {| verifyEmailAddress := verifyEmailAddress (quiet StatusTrue);
     findUnique := findUnique (quiet StatusTrue);
     getConvertKitSubscriber := getConvertKitSubscriber (quiet StatusTrue);
     getDomainUrl := getDomainUrl (quiet StatusTrue);
     sendToken := fun _ _ => Throws e;
     getErrorMessage := getErrorMessage (quiet StatusTrue);
     getUser := getUser (quiet StatusTrue) |}.

(** Collaborators whose verification service rejects every address with
    [message] and whose database is down. *)
Definition database_down (message : jsstring) (e : Thrown) : Collaborators :=
  {| verifyEmailAddress := fun _ => Returns (StatusFalse message);
     findUnique := fun _ => Throws e;
     getConvertKitSubscriber := getConvertKitSubscriber (quiet StatusTrue);
     getDomainUrl := getDomainUrl (quiet StatusTrue);
     sendToken := sendToken (quiet StatusTrue);
     getErrorMessage := getErrorMessage (quiet StatusTrue);
     getUser := getUser (quiet StatusTrue) |}.

(** Collaborators whose verification service rejects every address with
    [message] while the database knows the address [known]. *)
Definition known_user (message known : jsstring) : Collaborators :=
  {| verifyEmailAddress := fun _ => Returns (StatusFalse message);
     findUnique := fun email =>
       if JsString.eqb email known
       then Returns (Some (mkUserId (JsString.lit "user-1"))) else Returns None;
     getConvertKitSubscriber := getConvertKitSubscriber (quiet StatusTrue);
     getDomainUrl := getDomainUrl (quiet StatusTrue);
     sendToken := sendToken (quiet StatusTrue);
     getErrorMessage := getErrorMessage (quiet StatusTrue);
     getUser := getUser (quiet StatusTrue) |}.

(** A first visit: a form body and no cookie. *)
Definition post (fields : FormData) : Request :=
  mkRequest fields LoginSession.empty [].

Definition field (name value : string) : jsstring * FormDataEntryValue :=
  (JsString.lit name, EntryString (JsString.lit value)).

(** ** The handler from its first line *)

Module Handler.

(** The body of a request as [await request.formData()] (line 75) finds it:
    a form, which the call returns decoded, or anything else, on which the
    call rejects with the error [e] (a [TypeError] for a JSON or an empty
    body). *)
Inductive Body : Type :=
| FormBody (formData : FormData)
| OtherBody (e : Thrown).

(** A request as it arrives, its body not yet decoded. *)
Record Incoming : Type := mkIncoming {
  in_body : Body;
  in_loginSession : LoginSession.t;
  in_headers : list (jsstring * jsstring)
}.

(** The request with its body decoded. *)
Definition decoded (incoming : Incoming) (formData : FormData) : Request :=
  mkRequest formData (in_loginSession incoming) (in_headers incoming).

(** [export async function action({ request })] with its line 75: the body
    is decoded first, and when that rejects the handler throws before
    [getLoginInfoSession] is reached; on a form the handler goes on as
    [action] above describes. *)
Definition action_on_body (W : Collaborators) (incoming : Incoming)
  : M Response :=
  match in_body incoming with
  | OtherBody e => throw e
  | FormBody formData => action W (decoded incoming formData)
  end.

End Handler.

(** A request that comes back with the cookie of an earlier, successful
    submission: the session already holds a magic link. *)
Definition post_again (fields : FormData) (oldLink : jsstring) : Request :=
  mkRequest fields (LoginSession.mk None None (Some oldLink)) [].

(** ** The page *)

(** Truthiness of an optional string: [undefined] and the empty string are
    falsy. *)
Definition option_truthy (v : option jsstring) : bool :=
  match v with
  | Some s => JsString.truthy s
  | None => false
  end.

(** [v ?? ''] *)
Definition or_empty (v : option jsstring) : jsstring :=
  match v with
  | Some s => s
  | None => []
  end.

(** The state of the component, [{ email }]. *)
Record FormValues : Type := mkFormValues { fv_email : jsstring }.

(** The two handlers that call [setFormValues]: [onChange] of the form and
    [onClick] of the reset button. *)
Inductive FormEvent : Type :=
| Change (value : jsstring)
| Reset.

(** The initial state, [React.useState({ email: data.email ?? '' })]. *)
Definition initialFormValues (data : LoginData) : FormValues :=
  mkFormValues (or_empty (data_email data)).

Definition setFormValues (ev : FormEvent) (formValues : FormValues) : FormValues :=
  match ev with
  | Change value => mkFormValues value
  | Reset => mkFormValues []
  end.

(** What stands below the buttons: the [InputError], the paragraph of the
    sent link, or [null]; each with its [id] and its text. *)
Inductive Feedback : Type :=
| InputError (id text : jsstring)
| SentNote (id text : jsstring)
| NoFeedback.

(** The code unit of the sparkles sign that opens the note. *)
Definition sparkles : N := 10024.

Definition sent_note (email : jsstring) : jsstring :=
  [sparkles] ++ JsString.lit " A magic link has been sent to " ++ email
  ++ JsString.lit ".".

(** The parts of the rendering that depend on the data and on the state;
    the rest of the markup is constant. *)
Record LoginView : Type := mkLoginView {
  aria_describedby : jsstring;
  defaultValue : jsstring;
  aria_live : jsstring;
  feedback : Feedback
}.

(** [function Login()], given what [useLoaderData] and [useState] hold. *)
Definition Login (data : LoginData) (formValues : FormValues) : LoginView :=
  let formIsValid := email_match (fv_email formValues) in
  {| aria_describedby :=
       if option_truthy (data_error data)
       then JsString.lit "error-message" else JsString.lit "success-message";
     defaultValue := fv_email formValues;
     aria_live :=
       if formIsValid
       then JsString.lit "Sign in form is now valid and ready to submit"
       else JsString.lit "Sign in form is now invalid.";
     feedback :=
       if option_truthy (data_error data)
       then InputError (JsString.lit "error-message") (or_empty (data_error data))
       else if option_truthy (data_email data)
       then SentNote (JsString.lit "success-message") (sent_note (or_empty (data_email data)))
       else NoFeedback |}.

(** The [id] of the element that the feedback renders, if any. *)
Definition feedback_id (f : Feedback) : option jsstring :=
  match f with
  | InputError id _ | SentNote id _ => Some id
  | NoFeedback => None
  end.

(** The first rendering of the page for a request: the loader runs and the
    component is mounted on its data.  [None] when the loader answers with
    something else than the data of the page. *)
Definition first_render (W : Collaborators) (request : Request) : option LoginView :=
  match fst (run (loader W request)) with
  | Returns response =>
      option_map (fun data => Login data (initialFormValues data)) (body response)
  | Throws _ => None
  end.

Definition is_send_token (ev : Event) : bool :=
  match ev with CallSendToken _ _ => true | _ => false end.

(** The collaborator calls of a run, in order. *)
Definition collaborator_calls (st : State) : list Event :=
  filter is_collaborator_call (trace st).

(** * Properties *)

(** ** Strings and the e-mail pattern *)

Lemma JsString_eqb_eq (a b : jsstring) : JsString.eqb a b = true <-> a = b.
Proof.
  unfold JsString.eqb.
  destruct (list_eq_dec N.eq_dec a b); intuition congruence.
Qed.

Lemma email_match_step x a y t :
  email_match (x :: a :: y :: t) =
    (negb (JsString.is_line_terminator x)
     && N.eqb a JsString.at_sign
     && negb (JsString.is_line_terminator y))
    || email_match (a :: y :: t).
Proof. reflexivity. Qed.

Lemma at_between_textb_step x a y t :
  at_between_textb (x :: a :: y :: t) =
    N.eqb a JsString.at_sign || at_between_textb (a :: y :: t).
Proof. reflexivity. Qed.

(** A string the pattern accepts is not empty, hence truthy. *)
Lemma email_match_truthy s : email_match s = true -> JsString.truthy s = true.
Proof. destruct s; [discriminate | reflexivity]. Qed.

(** The scan finds an [@] framed by two code units that [.] matches,
    wherever it stands. *)
Lemma email_match_framed pre x y post :
  JsString.is_line_terminator x = false ->
  JsString.is_line_terminator y = false ->
  email_match (pre ++ x :: JsString.at_sign :: y :: post) = true.
Proof.
  intros Hx Hy. induction pre as [|c pre IH].
  - simpl app. rewrite email_match_step, Hx, Hy. reflexivity.
  - destruct pre as [|c1 [|c2 pre]]; simpl app in *;
      rewrite email_match_step, IH; apply orb_true_r.
Qed.

Lemma email_match_inv s :
  email_match s = true ->
  exists pre x y post,
    s = pre ++ x :: JsString.at_sign :: y :: post
    /\ JsString.is_line_terminator x = false
    /\ JsString.is_line_terminator y = false.
Proof.
  induction s as [|x s IH]; [discriminate|].
  destruct s as [|a [|y t]]; try discriminate.
  rewrite email_match_step. intros H.
  apply orb_true_iff in H. destruct H as [H | H].
  - apply andb_true_iff in H. destruct H as [H Hy].
    apply andb_true_iff in H. destruct H as [Hx Ha].
    apply N.eqb_eq in Ha. subst a.
    exists [], x, y, t. repeat split.
    + now apply negb_true_iff.
    + now apply negb_true_iff.
  - destruct (IH H) as (pre & x' & y' & post & E & Hx & Hy).
    exists (x :: pre), x', y', post. rewrite E. auto.
Qed.

Section PlusDot.

Import Regex.

Let dots (w : jsstring) : Prop :=
  w <> [] /\ Forall (fun c => JsString.is_line_terminator c = false) w.

Lemma Matches_plus_dot_inv r w :
  Matches r w -> r = Plus Dot -> dots w.
Proof.
  induction 1 as [ | | | r w H _ | r w1 w2 H1 _ H2 IH2]; intros E;
    try discriminate; injection E as ->.
  - inversion H; subst. split; [discriminate | now constructor].
  - inversion H1; subst. destruct (IH2 eq_refl) as [_ F].
    split; [discriminate | now constructor].
Qed.

Lemma Matches_plus_dot_intro w : dots w -> Matches (Plus Dot) w.
Proof.
  intros [Hne F]. induction F as [|c w Hc F IH]; [congruence|].
  destruct w as [|c' w'].
  - apply MPlusOne. now constructor.
  - change (c :: c' :: w') with ([c] ++ c' :: w').
    apply MPlusMore; [now constructor | apply IH; discriminate].
Qed.

(** [email_match] decides whether [/.+@.+/] is found in the subject. *)
Lemma email_match_spec s :
  email_match s = true <-> Found email_pattern s.
Proof.
  split.
  - intros H. destruct (email_match_inv _ H) as (pre & x & y & post & -> & Hx & Hy).
    exists pre, [x; JsString.at_sign; y], post. split; [reflexivity|].
    change [x; JsString.at_sign; y] with ([x] ++ [JsString.at_sign] ++ [y]).
    repeat constructor; assumption.
  - intros (pre & w & post & -> & M).
    inversion M as [ | | r1 r2 w1 w23 M1 M23 | | ]; subst.
    inversion M23 as [ | | r1 r2 w2 w3 M2 M3 | | ]; subst.
    inversion M2; subst.
    destruct (Matches_plus_dot_inv _ _ M1 eq_refl) as [N1 F1].
    destruct (Matches_plus_dot_inv _ _ M3 eq_refl) as [N3 F3].
    destruct (exists_last N1) as (w1' & x & ->).
    destruct w3 as [|y w3']; [congruence|].
    apply Forall_app in F1. destruct F1 as [_ Fx].
    inversion Fx; subst. inversion F3; subst.
    replace (pre ++ ((w1' ++ [x]) ++ [JsString.at_sign] ++ y :: w3') ++ post)
      with ((pre ++ w1') ++ x :: JsString.at_sign :: y :: (w3' ++ post)).
    + now apply email_match_framed.
    + repeat (rewrite <- ?app_assoc; simpl). reflexivity.
Qed.

End PlusDot.

(** The test for the wording of the specification. *)
Lemma at_between_textb_spec s :
  at_between_textb s = true <-> at_between_text s.
Proof.
  split.
  - induction s as [|x s IH]; [discriminate|].
    destruct s as [|a [|y t]]; try discriminate.
    rewrite at_between_textb_step. intros H.
    apply orb_true_iff in H. destruct H as [H | H].
    + apply N.eqb_eq in H. subst a.
      exists [x], (y :: t). repeat split; discriminate.
    + destruct (IH H) as (pre & post & Hpre & Hpost & E).
      exists (x :: pre), post. rewrite E. repeat split; auto. discriminate.
  - intros (pre & post & Hpre & Hpost & ->).
    destruct post as [|y post]; [congruence|].
    induction pre as [|c pre IH]; [congruence|].
    destruct pre as [|c1 pre].
    + simpl app. rewrite at_between_textb_step.
      unfold JsString.at_sign. reflexivity.
    + destruct pre as [|c2 pre]; simpl app in *;
        rewrite at_between_textb_step;
        rewrite IH by discriminate; apply orb_true_r.
Qed.

(** The pattern asks for more than the wording: whatever it accepts has an
    [@] with text on both sides. *)
Lemma email_match_at_between_text s :
  email_match s = true -> at_between_text s.
Proof.
  intros H. destruct (email_match_inv _ H) as (pre & x & y & post & -> & _ & _).
  exists (pre ++ [x]), (y :: post). repeat split.
  - destruct pre; discriminate.
  - discriminate.
  - rewrite <- app_assoc. reflexivity.
Qed.

(** On a subject without line terminators the two agree. *)
Lemma at_between_text_email_match s :
  Forall (fun c => JsString.is_line_terminator c = false) s ->
  at_between_text s -> email_match s = true.
Proof.
  intros F (pre & post & Hpre & Hpost & ->).
  destruct (exists_last Hpre) as (pre' & x & ->).
  destruct post as [|y post]; [congruence|].
  apply Forall_app in F. destruct F as [F1 F2].
  apply Forall_app in F1. destruct F1 as [_ Fx].
  inversion Fx; subst. inversion F2 as [|? ? _ F3]; subst. inversion F3; subst.
  rewrite <- app_assoc. simpl. now apply email_match_framed.
Qed.

(** ** Running the handlers *)

Ltac step_handler :=
  cbv beta iota zeta delta
    [bind ret throw try_catch emit await modify_session read_session
     getLoginInfoSession setEmail flashError setMagicLink getHeaders
     getEmail getError initial session trace fst snd].

Section Runs.

Variable W : Collaborators.

(** [isEmailVerified] leaves the session alone; its answer and its calls
    are the same whatever happened before. *)
Lemma isEmailVerified_run email st :
  isEmailVerified W email st =
    (verdict W email,
     mkState (session st) (trace st ++ verification_calls W email)).
Proof.
  unfold verdict, verification_calls, isEmailVerified. step_handler.
  destruct (verifyEmailAddress W email) as [[|m]|e]; cbn; try reflexivity.
  destruct (findUnique W email) as [[u|]|e]; cbn;
    rewrite <- ?app_assoc; try reflexivity.
  destruct (getConvertKitSubscriber W email) as [[c|]|e]; cbn;
    rewrite <- ?app_assoc; reflexivity.
Qed.

Variable request : Request.

Let cookie := req_loginSession request.

(** The invariant on the type of the field fails: the handler throws
    before it has touched the session or called anybody. *)
Lemma action_not_a_string :
  (email_field request = None \/ email_field request = Some EntryFile) ->
  run (action W request) =
    (Throws (InvariantFailed (JsString.lit "Form submitted incorrectly")),
     mkState cookie []).
Proof.
  unfold run, action, email_field. intros [E | E]; rewrite E; reflexivity.
Qed.

Variable emailAddress : jsstring.
Hypothesis email_is_string : email_field request = Some (EntryString emailAddress).

(** The state after line 80, [if (emailAddress) loginSession.setEmail(...)]. *)
Let stored : LoginSession.t :=
  if JsString.truthy emailAddress
  then LoginSession.with_email emailAddress cookie else cookie.

Let stored_trace : list Event :=
  if JsString.truthy emailAddress then [SetEmail emailAddress] else [].

Lemma action_malformed :
  email_match emailAddress = false ->
  let s := LoginSession.with_error
             (Some (JsString.lit "A valid email is required")) stored in
  run (action W request) =
    (Returns (login_redirect (Some 400%N) s),
     mkState s
       ((stored_trace ++ [FlashError (JsString.lit "A valid email is required")])
        ++ [GetHeaders])).
Proof.
  intros Hm. unfold run, action. fold (email_field request).
  rewrite email_is_string. unfold stored, stored_trace.
  step_handler. rewrite Hm.
  destruct (JsString.truthy emailAddress); reflexivity.
Qed.

Hypothesis email_is_valid : email_match emailAddress = true.

Let s1 : LoginSession.t := LoginSession.with_email emailAddress cookie.

Lemma action_honeypot :
  entry_truthy (password_field request) = true ->
  run (action W request) =
    (Returns (login_redirect None s1),
     mkState s1
       ([SetEmail emailAddress;
         ConsoleInfo (JsString.lit "FAILED HONEYPOT ON LOGIN") (req_formData request)]
        ++ [GetHeaders])).
Proof.
  intros Hp. unfold run, action. fold (email_field request).
  rewrite email_is_string. fold (password_field request). rewrite Hp.
  step_handler. rewrite email_is_valid, (email_match_truthy _ email_is_valid).
  reflexivity.
Qed.

Hypothesis honeypot_empty : entry_truthy (password_field request) = false.

Let checked : list Event :=
  SetEmail emailAddress :: verification_calls W emailAddress.

Lemma action_not_verified message :
  verdict W emailAddress = Returns (NotVerified message) ->
  let s := LoginSession.with_error (Some (not_verified_message message)) s1 in
  run (action W request) =
    (Returns (login_redirect (Some 400%N) s),
     mkState s
       ((checked ++ [FlashError (not_verified_message message)]) ++ [GetHeaders])).
Proof.
  intros Hv. unfold run, action. fold (email_field request).
  rewrite email_is_string. fold (password_field request). rewrite honeypot_empty.
  step_handler. rewrite email_is_valid, (email_match_truthy _ email_is_valid).
  cbn [negb]. rewrite isEmailVerified_run, Hv. cbn.
  rewrite <- app_assoc. reflexivity.
Qed.

Hypothesis verification_passed : passes_verification W emailAddress = true.

Let proceeded : list Event := checked ++ verification_log W emailAddress.

Lemma action_sent domainUrl magicLink :
  getDomainUrl W request = Returns domainUrl ->
  sendToken W emailAddress domainUrl = Returns magicLink ->
  let s := LoginSession.with_magicLink magicLink s1 in
  run (action W request) =
    (Returns (login_redirect None s),
     mkState s
       ((proceeded
         ++ [CallGetDomainUrl; CallSendToken emailAddress domainUrl;
             SetMagicLink magicLink])
        ++ [GetHeaders])).
Proof.
  intros Hd Ht. unfold run, action. fold (email_field request).
  rewrite email_is_string. fold (password_field request). rewrite honeypot_empty.
  step_handler. rewrite email_is_valid, (email_match_truthy _ email_is_valid).
  cbn [negb]. rewrite isEmailVerified_run.
  unfold proceeded, checked, verification_log.
  unfold passes_verification in verification_passed.
  destruct (verdict W emailAddress) as [[|m]|e]; try discriminate;
    rewrite Hd, Ht; cbn; rewrite <- ?app_assoc; reflexivity.
Qed.

Lemma action_no_domain e :
  getDomainUrl W request = Throws e ->
  let s := LoginSession.with_error (Some (getErrorMessage W e)) s1 in
  run (action W request) =
    (Returns (login_redirect (Some 400%N) s),
     mkState s
       ((proceeded ++ [CallGetDomainUrl; FlashError (getErrorMessage W e)])
        ++ [GetHeaders])).
Proof.
  intros Hd. unfold run, action. fold (email_field request).
  rewrite email_is_string. fold (password_field request). rewrite honeypot_empty.
  step_handler. rewrite email_is_valid, (email_match_truthy _ email_is_valid).
  cbn [negb]. rewrite isEmailVerified_run.
  unfold proceeded, checked, verification_log.
  unfold passes_verification in verification_passed.
  destruct (verdict W emailAddress) as [[|m]|e']; try discriminate;
    rewrite Hd; cbn; rewrite <- ?app_assoc; reflexivity.
Qed.

Lemma action_not_sent domainUrl e :
  getDomainUrl W request = Returns domainUrl ->
  sendToken W emailAddress domainUrl = Throws e ->
  let s := LoginSession.with_error (Some (getErrorMessage W e)) s1 in
  run (action W request) =
    (Returns (login_redirect (Some 400%N) s),
     mkState s
       ((proceeded
         ++ [CallGetDomainUrl; CallSendToken emailAddress domainUrl;
             FlashError (getErrorMessage W e)])
        ++ [GetHeaders])).
Proof.
  intros Hd Ht. unfold run, action. fold (email_field request).
  rewrite email_is_string. fold (password_field request). rewrite honeypot_empty.
  step_handler. rewrite email_is_valid, (email_match_truthy _ email_is_valid).
  cbn [negb]. rewrite isEmailVerified_run.
  unfold proceeded, checked, verification_log.
  unfold passes_verification in verification_passed.
  destruct (verdict W emailAddress) as [[|m]|e']; try discriminate;
    rewrite Hd, Ht; cbn; rewrite <- ?app_assoc; reflexivity.
Qed.

End Runs.

(** ** The verification chain *)

Lemma verdict_eq W email :
  verdict W email =
    match verifyEmailAddress W email with
    | Throws e => Throws e
    | Returns StatusTrue => Returns Verified
    | Returns (StatusFalse message) =>
        match findUnique W email with
        | Throws e => Throws e
        | Returns (Some _) => Returns Verified
        | Returns None =>
            match getConvertKitSubscriber W email with
            | Throws e => Throws e
            | Returns (Some _) => Returns Verified
            | Returns None => Returns (NotVerified message)
            end
        end
    end.
Proof.
  unfold verdict, isEmailVerified. step_handler.
  destruct (verifyEmailAddress W email) as [[|m]|e]; try reflexivity.
  destruct (findUnique W email) as [[u|]|e]; try reflexivity.
  destruct (getConvertKitSubscriber W email) as [[c|]|e]; reflexivity.
Qed.

Lemma verification_calls_eq W email :
  verification_calls W email =
    CallVerifyEmailAddress email ::
    match verifyEmailAddress W email with
    | Returns (StatusFalse _) =>
        CallFindUnique email ::
        match findUnique W email with
        | Returns None => [CallGetConvertKitSubscriber email]
        | _ => []
        end
    | _ => []
    end.
Proof.
  unfold verification_calls, isEmailVerified. step_handler.
  destruct (verifyEmailAddress W email) as [[|m]|e]; try reflexivity.
  destruct (findUnique W email) as [[u|]|e]; try reflexivity.
  destruct (getConvertKitSubscriber W email) as [[c|]|e]; reflexivity.
Qed.

(** The verification makes collaborator calls and nothing else. *)
Lemma verification_calls_only_calls W email (p : Event -> bool) :
  (forall e, p (CallVerifyEmailAddress e) = false) ->
  (forall e, p (CallFindUnique e) = false) ->
  (forall e, p (CallGetConvertKitSubscriber e) = false) ->
  filter p (verification_calls W email) = [].
Proof.
  intros Hv Hd Hl. rewrite verification_calls_eq.
  destruct (verifyEmailAddress W email) as [[|m]|e]; cbn; rewrite ?Hv; try reflexivity.
  destruct (findUnique W email) as [[u|]|e]; cbn; rewrite ?Hd, ?Hl; reflexivity.
Qed.

Lemma verification_log_only_console W email (p : Event -> bool) :
  (forall m e, p (ConsoleError m e) = false) ->
  filter p (verification_log W email) = [].
Proof.
  intros Hp. unfold verification_log.
  destruct (verdict W email); cbn; rewrite ?Hp; reflexivity.
Qed.

Ltac settle_chain :=
  cbn; repeat split; intros;
  repeat match goal with
    | H : exists _, _ |- _ => destruct H
    | H : _ /\ _ |- _ => destruct H
    | H : _ \/ _ |- _ => destruct H
    | H : False |- _ => destruct H
    end;
  try discriminate; eauto 8.

(** C2: [isEmailVerified] first calls the verification service; it goes on
    to the database lookup exactly when the service reports not-verified,
    and from there to the mailing-list lookup exactly when the database
    knows no such user, in this order.  Its answer is [{ verified: true }]
    exactly when the service verifies or one of the two fallbacks was run
    and found the address; a step that comes after a successful one is not
    invoked.  The session is not touched. *)
Theorem isEmailVerified_fallback_chain W email st :
  let service := CallVerifyEmailAddress email in
  let database := CallFindUnique email in
  let mailing_list := CallGetConvertKitSubscriber email in
  let not_verified := exists m, verifyEmailAddress W email = Returns (StatusFalse m) in
  let user_found := exists u, findUnique W email = Returns (Some u) in
  let subscriber_found := exists c, getConvertKitSubscriber W email = Returns (Some c) in
  exists calls,
    snd (isEmailVerified W email st) = mkState (session st) (trace st ++ calls)
    /\ (calls = [service] \/ calls = [service; database]
        \/ calls = [service; database; mailing_list])
    /\ (In database calls <-> not_verified)
    /\ (In mailing_list calls <-> not_verified /\ findUnique W email = Returns None)
    /\ (fst (isEmailVerified W email st) = Returns Verified <->
          verifyEmailAddress W email = Returns StatusTrue
          \/ (In database calls /\ user_found)
          \/ (In mailing_list calls /\ subscriber_found)).
Proof.
  cbv zeta. exists (verification_calls W email).
  rewrite isEmailVerified_run. cbn [fst snd].
  rewrite verdict_eq, verification_calls_eq.
  split; [reflexivity|].
  destruct (verifyEmailAddress W email) as [[|m]|e];
    [ | destruct (findUnique W email) as [[u|]|e];
        [ | destruct (getConvertKitSubscriber W email) as [[c|]|e] | ] | ];
    settle_chain.
Qed.

(** ** The action, path by path *)

Lemma filter_snoc_false {A} (p : A -> bool) l x :
  p x = false -> filter p (l ++ [x]) = filter p l.
Proof. intros H. rewrite filter_app. cbn. rewrite H. apply app_nil_r. Qed.

Lemma status_login_redirect code s :
  status (login_redirect code s) = match code with Some c => c | None => 302%N end.
Proof. reflexivity. Qed.

Lemma location_login_redirect code s :
  location_of (login_redirect code s) = Some (Text (JsString.lit "/login")).
Proof. reflexivity. Qed.

Lemma cookie_login_redirect code s :
  cookie_of (login_redirect code s) = Some s.
Proof. reflexivity. Qed.

(** Once the e-mail field is a string, every path of the handler returns a
    redirect to [/login] made of the headers of the session, and
    [getHeaders] is the last thing it does, once. *)
Lemma action_returns W request emailAddress :
  email_field request = Some (EntryString emailAddress) ->
  exists code s calls,
    run (action W request) =
      (Returns (login_redirect code s), mkState s (calls ++ [GetHeaders]))
    /\ (code = None \/ code = Some 400%N)
    /\ filter is_get_headers calls = []
    /\ (JsString.truthy emailAddress = true ->
        LoginSession.email s = Some emailAddress
        /\ exists rest, calls = SetEmail emailAddress :: rest).
Proof.
  intros He.
  destruct (email_match emailAddress) eqn:Hm.
  2:{ eexists _, _, _. rewrite (action_malformed W _ _ He Hm). cbv zeta.
      split; [reflexivity|]. split; [auto|].
      destruct (JsString.truthy emailAddress); cbn; split; try reflexivity;
        try discriminate. intros _. eauto. }
  destruct (entry_truthy (password_field request)) eqn:Hp.
  { eexists _, _, _. rewrite (action_honeypot W _ _ He Hm Hp).
    split; [reflexivity|]. split; [auto|]. cbn. eauto. }
  assert (Hcalls : forall tail,
             filter is_get_headers tail = [] ->
             filter is_get_headers
               ((SetEmail emailAddress :: verification_calls W emailAddress) ++ tail) = []).
  { intros tail Ht. rewrite filter_app. cbn.
    rewrite verification_calls_only_calls by reflexivity. exact Ht. }
  destruct (verdict W emailAddress) as [[|m]|e0] eqn:Hv.
  2:{ eexists _, _, _. rewrite (action_not_verified W _ _ He Hm Hp _ Hv). cbv zeta.
      split; [reflexivity|]. split; [auto|].
      split; [apply Hcalls; reflexivity|]. cbn. eauto. }
  all: assert (Hpass : passes_verification W emailAddress = true)
         by (unfold passes_verification; rewrite Hv; reflexivity).
  all: destruct (getDomainUrl W request) as [d|e] eqn:Hd;
         [ destruct (sendToken W emailAddress d) as [link|e] eqn:Ht | ].
  all: eexists _, _, _;
         first [ rewrite (action_sent W _ _ He Hm Hp Hpass _ _ Hd Ht)
               | rewrite (action_not_sent W _ _ He Hm Hp Hpass _ _ Hd Ht)
               | rewrite (action_no_domain W _ _ He Hm Hp Hpass _ Hd) ];
         cbv zeta; (split; [reflexivity|]); (split; [auto|]).
  all: split;
         [ rewrite <- app_assoc; apply Hcalls; rewrite filter_app;
           rewrite verification_log_only_console by reflexivity; reflexivity
         | cbn; eauto ].
Qed.

Lemma answers_intro W request code s tr :
  run (action W request) = (Returns (login_redirect code s), mkState s tr) ->
  answers W request (match code with Some c => c | None => 302%N end) (mkState s tr).
Proof.
  intros H. exists (login_redirect code s). rewrite H. repeat split.
Qed.

(** ** Input errors *)

(** C3: when the e-mail field is a string without an [@] that has text on
    both sides, the action answers with the 400 redirect to [/login], the
    error "A valid email is required" is flashed into the session, and no
    verification, database, mailing-list or token collaborator is called. *)
Theorem action_rejects_malformed_email W request emailAddress :
  email_field request = Some (EntryString emailAddress) ->
  at_between_textb emailAddress = false ->
  exists st,
    answers W request 400 st
    /\ LoginSession.error (session st) = Some (JsString.lit "A valid email is required")
    /\ In (FlashError (JsString.lit "A valid email is required")) (trace st)
    /\ filter is_collaborator_call (trace st) = [].
Proof.
  intros He Hat.
  assert (Hm : email_match emailAddress = false).
  { destruct (email_match emailAddress) eqn:Hm; [|reflexivity].
    apply email_match_at_between_text, at_between_textb_spec in Hm. congruence. }
  pose proof (action_malformed W _ _ He Hm) as Hrun. cbv zeta in Hrun.
  eexists. split; [exact (answers_intro _ _ _ _ _ Hrun)|].
  cbn [session trace]. split; [reflexivity|]. split.
  - apply in_or_app. left. apply in_or_app. right. left. reflexivity.
  - destruct (JsString.truthy emailAddress); reflexivity.
Qed.

Lemma action_rejects_malformed_email_witness :
  let request := post [field "email" "not-an-email"; field "password" ""] in
  email_field request = Some (EntryString (JsString.lit "not-an-email"))
  /\ at_between_textb (JsString.lit "not-an-email") = false
  /\ exists st,
       answers (quiet StatusTrue) request 400 st
       /\ LoginSession.error (session st) = Some (JsString.lit "A valid email is required")
       /\ In (FlashError (JsString.lit "A valid email is required")) (trace st)
       /\ filter is_collaborator_call (trace st) = [].
Proof.
  cbv zeta. split; [reflexivity|]. split; [reflexivity|].
  apply (action_rejects_malformed_email (quiet StatusTrue) _ (JsString.lit "not-an-email"));
    reflexivity.
Defined.

(** The pattern itself refuses more than the wording says: an [@] framed by
    line breaks has text on both sides and is still answered with 400. *)
Example action_rejects_line_breaks :
  let emailAddress := [97; 10; 64; 10; 98]%N in
  at_between_textb emailAddress = true
  /\ email_match emailAddress = false.
Proof. split; reflexivity. Qed.

(** C7 as stated fails: with no [email] entry in the body the handler
    returns nothing at all. *)
Lemma missing_email_is_not_a_400 :
  ~ (forall W request,
       email_field request = None ->
       exists st, answers W request 400 st
                  /\ LoginSession.error (session st) <> None).
Proof.
  intros H.
  destruct (H (quiet StatusTrue) (post [field "password" ""]) eq_refl)
    as (st & (response & Hrun & _) & _).
  discriminate Hrun.
Qed.

(** C7, amended: when the [email] field is absent from the body, the
    invariant on its type fails and the action throws "Form submitted
    incorrectly"; the session is as the cookie gave it, nothing is flashed
    and nobody is called.  A field that is present and empty is the input
    error that is answered with the 400 redirect and a flashed error. *)
Theorem action_missing_email_throws W request :
  (email_field request = None ->
   run (action W request) =
     (Throws (InvariantFailed (JsString.lit "Form submitted incorrectly")),
      mkState (req_loginSession request) []))
  /\ (email_field request = Some (EntryString []) ->
      exists st,
        answers W request 400 st
        /\ LoginSession.error (session st) = Some (JsString.lit "A valid email is required")
        /\ LoginSession.email (session st) = LoginSession.email (req_loginSession request)).
Proof.
  split.
  - intros He. apply action_not_a_string. now left.
  - intros He.
    pose proof (action_malformed W _ _ He eq_refl) as Hrun. cbv zeta in Hrun.
    eexists. split; [exact (answers_intro _ _ _ _ _ Hrun)|].
    split; reflexivity.
Qed.

Lemma action_missing_email_throws_witness :
  let absent := post [field "password" ""] in
  let empty := post [field "email" ""; field "password" ""] in
  email_field absent = None
  /\ email_field empty = Some (EntryString [])
  /\ run (action (quiet StatusTrue) absent) =
       (Throws (InvariantFailed (JsString.lit "Form submitted incorrectly")),
        mkState LoginSession.empty [])
  /\ exists st,
       answers (quiet StatusTrue) empty 400 st
       /\ LoginSession.error (session st) = Some (JsString.lit "A valid email is required")
       /\ LoginSession.email (session st) = None.
Proof.
  cbv zeta. split; [reflexivity|]. split; [reflexivity|]. split.
  - apply (proj1 (action_missing_email_throws (quiet StatusTrue)
                    (post [field "password" ""]))).
    reflexivity.
  - apply (proj2 (action_missing_email_throws (quiet StatusTrue)
                    (post [field "email" ""; field "password" ""]))).
    reflexivity.
Defined.

(** ** The honeypot *)

(** C4 as stated fails: the e-mail check comes before the honeypot, so a
    filled honeypot next to a malformed address is answered with 400 and a
    flashed error. *)
Lemma honeypot_after_email_check :
  ~ (forall W request,
       entry_truthy (password_field request) = true ->
       exists st, answers W request 302 st
                  /\ filter is_flash_error (trace st) = []).
Proof.
  intros H.
  destruct (H (quiet StatusTrue)
              (post [field "email" "not-an-email"; field "password" "secret"])
              eq_refl)
    as (st & (response & Hrun & Hstatus & _) & _).
  injection Hrun as <- <-. discriminate Hstatus.
Qed.

(** C4, amended: with a non-empty [password] field the action never calls
    the verification collaborator and never sets a magic link; when the
    e-mail field is a string that the pattern accepts, the answer is the
    plain redirect to [/login] (302, not 400), no error is flashed and the
    submission is logged. *)
Theorem action_honeypot_is_silent W request :
  entry_truthy (password_field request) = true ->
  (let st := snd (run (action W request)) in
   filter is_verify_call (trace st) = []
   /\ filter is_set_magic_link (trace st) = []
   /\ LoginSession.magicLink (session st) = LoginSession.magicLink (req_loginSession request))
  /\ (forall emailAddress,
        email_field request = Some (EntryString emailAddress) ->
        email_match emailAddress = true ->
        exists st,
          answers W request 302 st
          /\ filter is_flash_error (trace st) = []
          /\ LoginSession.error (session st) = LoginSession.error (req_loginSession request)
          /\ filter is_collaborator_call (trace st) = []
          /\ In (ConsoleInfo (JsString.lit "FAILED HONEYPOT ON LOGIN") (req_formData request))
               (trace st)).
Proof.
  intros Hp. split.
  - cbv zeta.
    destruct (email_field request) as [[emailAddress|]|] eqn:He.
    + destruct (email_match emailAddress) eqn:Hm.
      * rewrite (action_honeypot W _ _ He Hm Hp). repeat split.
      * rewrite (action_malformed W _ _ He Hm). cbv zeta.
        destruct (JsString.truthy emailAddress); repeat split.
    + rewrite (action_not_a_string W request) by now right. repeat split.
    + rewrite (action_not_a_string W request) by now left. repeat split.
  - intros emailAddress He Hm.
    pose proof (action_honeypot W _ _ He Hm Hp) as Hrun.
    eexists. split; [exact (answers_intro _ _ _ _ _ Hrun)|].
    cbn. repeat split. auto.
Qed.

Lemma action_honeypot_is_silent_witness :
  let request := post [field "email" "bot@example.com"; field "password" "secret"] in
  entry_truthy (password_field request) = true
  /\ email_field request = Some (EntryString (JsString.lit "bot@example.com"))
  /\ email_match (JsString.lit "bot@example.com") = true
  /\ exists st,
       answers (quiet StatusTrue) request 302 st
       /\ filter is_flash_error (trace st) = []
       /\ LoginSession.error (session st) = None
       /\ filter is_collaborator_call (trace st) = []
       /\ In (ConsoleInfo (JsString.lit "FAILED HONEYPOT ON LOGIN") (req_formData request))
            (trace st).
Proof.
  cbv zeta. repeat (split; [reflexivity|]).
  apply (proj2 (action_honeypot_is_silent (quiet StatusTrue)
                  (post [field "email" "bot@example.com"; field "password" "secret"])
                  eq_refl)
               (JsString.lit "bot@example.com"));
    reflexivity.
Defined.

(** ** Verification *)

(** C5: with a valid address and an empty honeypot, when the verifier
    reports not-verified and neither the database nor the mailing list knows
    the address, the action answers with the 400 redirect and flashes an
    error that embeds the message of the verifier. *)
Theorem action_rejects_unverified_email W request emailAddress message :
  email_field request = Some (EntryString emailAddress) ->
  email_match emailAddress = true ->
  entry_truthy (password_field request) = false ->
  verifyEmailAddress W emailAddress = Returns (StatusFalse message) ->
  findUnique W emailAddress = Returns None ->
  getConvertKitSubscriber W emailAddress = Returns None ->
  exists st,
    answers W request 400 st
    /\ LoginSession.error (session st) =
         Some (not_verified_prefix ++ message ++ not_verified_suffix)
    /\ In (FlashError (not_verified_prefix ++ message ++ not_verified_suffix)) (trace st)
    /\ filter is_set_magic_link (trace st) = [].
Proof.
  intros He Hm Hp Hv Hd Hl.
  assert (Hverdict : verdict W emailAddress = Returns (NotVerified message))
    by (rewrite verdict_eq, Hv, Hd, Hl; reflexivity).
  pose proof (action_not_verified W _ _ He Hm Hp _ Hverdict) as Hrun.
  cbv zeta in Hrun.
  eexists. split; [exact (answers_intro _ _ _ _ _ Hrun)|].
  cbn [session trace]. split; [reflexivity|]. split.
  - apply in_or_app. left. apply in_or_app. right. left. reflexivity.
  - rewrite !filter_app. cbn.
    rewrite verification_calls_only_calls by reflexivity. reflexivity.
Qed.

Lemma action_rejects_unverified_email_witness :
  let W := quiet (StatusFalse (JsString.lit "Mailbox not found")) in
  let request := post [field "email" "a@b.com"; field "password" ""] in
  email_field request = Some (EntryString (JsString.lit "a@b.com"))
  /\ exists st,
       answers W request 400 st
       /\ LoginSession.error (session st) =
            Some (not_verified_prefix ++ JsString.lit "Mailbox not found"
                  ++ not_verified_suffix)
       /\ In (FlashError (not_verified_prefix ++ JsString.lit "Mailbox not found"
                          ++ not_verified_suffix)) (trace st)
       /\ filter is_set_magic_link (trace st) = [].
Proof.
  cbv zeta. split; [reflexivity|].
  apply (action_rejects_unverified_email
           (quiet (StatusFalse (JsString.lit "Mailbox not found")))
           (post [field "email" "a@b.com"; field "password" ""])
           (JsString.lit "a@b.com") (JsString.lit "Mailbox not found"));
    reflexivity.
Defined.

(** C1: with a valid address and an empty honeypot, when the call to the
    verification service throws, the action goes on exactly as it does when
    the service verifies the address: same response, same session, same
    calls in the same order (only the logged error is extra), and the token
    is asked for.  No 400 comes from the throw alone: if the token is sent,
    the answer is the plain 302 redirect. *)
Theorem action_verifier_throw_is_fail_open W request emailAddress e :
  email_field request = Some (EntryString emailAddress) ->
  email_match emailAddress = true ->
  entry_truthy (password_field request) = false ->
  verifyEmailAddress W emailAddress = Throws e ->
  let verified := run (action (with_verifier W (fun _ => Returns StatusTrue)) request) in
  let thrown := run (action W request) in
  fst thrown = fst verified
  /\ session (snd thrown) = session (snd verified)
  /\ filter (fun ev => negb (is_console ev)) (trace (snd thrown)) = trace (snd verified)
  /\ In CallGetDomainUrl (trace (snd thrown))
  /\ (forall domainUrl magicLink,
        getDomainUrl W request = Returns domainUrl ->
        sendToken W emailAddress domainUrl = Returns magicLink ->
        answers W request 302 (snd thrown)
        /\ LoginSession.magicLink (session (snd thrown)) = Some magicLink).
Proof.
  intros He Hm Hp Hv. cbv zeta.
  set (W' := with_verifier W (fun _ => Returns StatusTrue)).
  assert (Hpass : passes_verification W emailAddress = true)
    by (unfold passes_verification; rewrite verdict_eq, Hv; reflexivity).
  assert (Hpass' : passes_verification W' emailAddress = true) by reflexivity.
  assert (Hcalls : verification_calls W emailAddress = [CallVerifyEmailAddress emailAddress])
    by (rewrite verification_calls_eq, Hv; reflexivity).
  assert (Hlog : verification_log W emailAddress =
                   [ConsoleError (JsString.lit "There was an error verifying an email address:") e])
    by (unfold verification_log; rewrite verdict_eq, Hv; reflexivity).
  destruct (getDomainUrl W request) as [d|e1] eqn:Hd;
    [ destruct (sendToken W emailAddress d) as [link|e2] eqn:Ht | ].
  - pose proof (action_sent W _ _ He Hm Hp Hpass _ _ Hd Ht) as Hrun.
    rewrite Hrun, (action_sent W' _ _ He Hm Hp Hpass' d link Hd Ht).
    cbv zeta in *. rewrite Hcalls, Hlog in *.
    split; [reflexivity|]. split; [reflexivity|]. split; [reflexivity|].
    split; [cbn; auto 6|].
    intros domainUrl magicLink Ed Et. injection Ed as <-.
    rewrite Ht in Et. injection Et as <-.
    split; [exact (answers_intro _ _ _ _ _ Hrun) | reflexivity].
  - rewrite (action_not_sent W _ _ He Hm Hp Hpass _ _ Hd Ht),
      (action_not_sent W' _ _ He Hm Hp Hpass' d e2 Hd Ht).
    cbv zeta. rewrite Hcalls, Hlog.
    split; [reflexivity|]. split; [reflexivity|]. split; [reflexivity|].
    split; [cbn; auto 6|].
    intros domainUrl magicLink Ed Et. injection Ed as <-.
    rewrite Ht in Et. discriminate Et.
  - rewrite (action_no_domain W _ _ He Hm Hp Hpass _ Hd),
      (action_no_domain W' _ _ He Hm Hp Hpass' e1 Hd).
    cbv zeta. rewrite Hcalls, Hlog.
    split; [reflexivity|]. split; [reflexivity|]. split; [reflexivity|].
    split; [cbn; auto 6|].
    intros domainUrl magicLink Ed. discriminate Ed.
Qed.

Lemma action_verifier_throw_is_fail_open_witness :
  let e := ThrownError (JsString.lit "fetch failed") in
  let W := with_verifier (quiet StatusTrue) (fun _ => Throws e) in
  let request := post [field "email" "a@b.com"; field "password" ""] in
  verifyEmailAddress W (JsString.lit "a@b.com") = Throws e
  /\ fst (run (action W request)) = fst (run (action (quiet StatusTrue) request))
  /\ status
       (match fst (run (action W request)) with
        | Returns response => response
        | Throws _ => mkResponse 0 [] None
        end) = 302%N.
Proof.
  cbv zeta. split; [reflexivity|].
  pose proof (action_verifier_throw_is_fail_open
                (with_verifier (quiet StatusTrue)
                   (fun _ => Throws (ThrownError (JsString.lit "fetch failed"))))
                (post [field "email" "a@b.com"; field "password" ""])
                (JsString.lit "a@b.com")
                (ThrownError (JsString.lit "fetch failed"))
                eq_refl eq_refl eq_refl eq_refl) as H.
  cbv zeta in H. destruct H as (Hsame & _). split; [exact Hsame | reflexivity].
Defined.

(** ** The token *)

(** C6: with a valid address and an empty honeypot, when the verification
    lets the request through and the token collaborator returns a magic
    link, the action stores that link in the session and answers with the
    302 redirect to [/login] whose headers carry that session; no error is
    flashed. *)
Theorem action_success_sets_magic_link W request emailAddress domainUrl magicLink :
  email_field request = Some (EntryString emailAddress) ->
  email_match emailAddress = true ->
  entry_truthy (password_field request) = false ->
  passes_verification W emailAddress = true ->
  getDomainUrl W request = Returns domainUrl ->
  sendToken W emailAddress domainUrl = Returns magicLink ->
  exists st,
    answers W request 302 st
    /\ LoginSession.magicLink (session st) = Some magicLink
    /\ LoginSession.email (session st) = Some emailAddress
    /\ In (SetMagicLink magicLink) (trace st)
    /\ filter is_flash_error (trace st) = [].
Proof.
  intros He Hm Hp Hpass Hd Ht.
  pose proof (action_sent W _ _ He Hm Hp Hpass _ _ Hd Ht) as Hrun.
  cbv zeta in Hrun.
  eexists. split; [exact (answers_intro _ _ _ _ _ Hrun)|].
  cbn [session trace]. split; [reflexivity|]. split; [reflexivity|]. split.
  - apply in_or_app. left. apply in_or_app. right. cbn. auto.
  - rewrite !filter_app. cbn.
    rewrite verification_calls_only_calls by reflexivity.
    rewrite verification_log_only_console by reflexivity. reflexivity.
Qed.

Lemma action_success_sets_magic_link_witness :
  let request := post [field "email" "a@b.com"; field "password" ""] in
  passes_verification (quiet StatusTrue) (JsString.lit "a@b.com") = true
  /\ exists st,
       answers (quiet StatusTrue) request 302 st
       /\ LoginSession.magicLink (session st) =
            Some (JsString.lit "https://solofoundershub.com/magic?kodyKey=abc")
       /\ LoginSession.email (session st) = Some (JsString.lit "a@b.com")
       /\ In (SetMagicLink (JsString.lit "https://solofoundershub.com/magic?kodyKey=abc"))
            (trace st)
       /\ filter is_flash_error (trace st) = [].
Proof.
  cbv zeta. split; [reflexivity|].
  apply (action_success_sets_magic_link (quiet StatusTrue)
           (post [field "email" "a@b.com"; field "password" ""])
           (JsString.lit "a@b.com")
           (JsString.lit "https://solofoundershub.com")
           (JsString.lit "https://solofoundershub.com/magic?kodyKey=abc"));
    reflexivity.
Defined.

(** C9 as stated fails: the handler never clears the magic link, so when
    the cookie of the request already holds one (from an earlier submission
    that succeeded), the session flushed with the 400 still has a magic
    link set. *)
Lemma token_failure_keeps_old_magic_link :
  ~ (forall W request emailAddress e,
       email_field request = Some (EntryString emailAddress) ->
       email_match emailAddress = true ->
       entry_truthy (password_field request) = false ->
       passes_verification W emailAddress = true ->
       (exists domainUrl,
          getDomainUrl W request = Returns domainUrl
          /\ sendToken W emailAddress domainUrl = Throws e) ->
       exists st,
         answers W request 400 st
         /\ LoginSession.error (session st) = Some (getErrorMessage W e)
         /\ LoginSession.magicLink (session st) = None).
Proof.
  intros H.
  destruct (H (no_mail (ThrownError (JsString.lit "Failed to send email")))
              (post_again [field "email" "a@b.com"; field "password" ""]
                 (JsString.lit "https://solofoundershub.com/magic?kodyKey=old"))
              (JsString.lit "a@b.com")
              (ThrownError (JsString.lit "Failed to send email"))
              eq_refl eq_refl eq_refl eq_refl
              (ex_intro _ (JsString.lit "https://solofoundershub.com")
                 (conj eq_refl eq_refl)))
    as (st & (response & Hrun & _) & _ & Hnone).
  vm_compute in Hrun. injection Hrun as _ <-. discriminate Hnone.
Qed.

(** C9, amended: with a valid address and an empty honeypot, when the
    request gets as far as the token and the token generation or sending
    throws, the action flashes the message of what was thrown and answers
    with the 400 redirect to [/login]; it does not set the magic link:
    [setMagicLink] is not called and the session keeps the magic link that
    the cookie of the request carried, none when it carried none. *)
Theorem action_token_failure W request emailAddress e :
  email_field request = Some (EntryString emailAddress) ->
  email_match emailAddress = true ->
  entry_truthy (password_field request) = false ->
  passes_verification W emailAddress = true ->
  (getDomainUrl W request = Throws e
   \/ exists domainUrl,
        getDomainUrl W request = Returns domainUrl
        /\ sendToken W emailAddress domainUrl = Throws e) ->
  exists st,
    answers W request 400 st
    /\ LoginSession.error (session st) = Some (getErrorMessage W e)
    /\ In (FlashError (getErrorMessage W e)) (trace st)
    /\ filter is_set_magic_link (trace st) = []
    /\ LoginSession.magicLink (session st) = LoginSession.magicLink (req_loginSession request).
Proof.
  intros He Hm Hp Hpass [Hd | (domainUrl & Hd & Ht)].
  - pose proof (action_no_domain W _ _ He Hm Hp Hpass _ Hd) as Hrun.
    cbv zeta in Hrun.
    eexists. split; [exact (answers_intro _ _ _ _ _ Hrun)|].
    cbn [session trace]. split; [reflexivity|]. split.
    + apply in_or_app. left. apply in_or_app. right. cbn. auto.
    + split; [|reflexivity]. rewrite !filter_app. cbn.
      rewrite verification_calls_only_calls by reflexivity.
      rewrite verification_log_only_console by reflexivity. reflexivity.
  - pose proof (action_not_sent W _ _ He Hm Hp Hpass _ _ Hd Ht) as Hrun.
    cbv zeta in Hrun.
    eexists. split; [exact (answers_intro _ _ _ _ _ Hrun)|].
    cbn [session trace]. split; [reflexivity|]. split.
    + apply in_or_app. left. apply in_or_app. right. cbn. auto.
    + split; [|reflexivity]. rewrite !filter_app. cbn.
      rewrite verification_calls_only_calls by reflexivity.
      rewrite verification_log_only_console by reflexivity. reflexivity.
Qed.

Lemma action_token_failure_witness :
  let W := no_mail (ThrownError (JsString.lit "Failed to send email")) in
  let oldLink := JsString.lit "https://solofoundershub.com/magic?kodyKey=old" in
  let request := post_again [field "email" "a@b.com"; field "password" ""] oldLink in
  sendToken W (JsString.lit "a@b.com") (JsString.lit "https://solofoundershub.com")
    = Throws (ThrownError (JsString.lit "Failed to send email"))
  /\ exists st,
       answers W request 400 st
       /\ LoginSession.error (session st) = Some (JsString.lit "Failed to send email")
       /\ In (FlashError (JsString.lit "Failed to send email")) (trace st)
       /\ filter is_set_magic_link (trace st) = []
       /\ LoginSession.magicLink (session st) = Some oldLink.
Proof.
  cbv zeta. split; [reflexivity|].
  apply (action_token_failure
           (no_mail (ThrownError (JsString.lit "Failed to send email")))
           (post_again [field "email" "a@b.com"; field "password" ""]
              (JsString.lit "https://solofoundershub.com/magic?kodyKey=old"))
           (JsString.lit "a@b.com")
           (ThrownError (JsString.lit "Failed to send email")));
    try reflexivity.
  right. exists (JsString.lit "https://solofoundershub.com"). split; reflexivity.
Defined.

(** ** Every path *)



(** A JSON body on the login route: decoding it as a form rejects and the
    handler throws that error, with nothing written anywhere. *)
Example post_json_body :
  let e := ThrownError (JsString.lit "Could not parse content as FormData.") in
  run (Handler.action_on_body (quiet StatusTrue)
         (Handler.mkIncoming (Handler.OtherBody e) LoginSession.empty []))
  = (Throws e, initial).
Proof. reflexivity. Qed.

(** ** The stored address *)

Lemma loader_anonymous W request :
  getUser W request = Returns None ->
  exists response st,
    run (loader W request) = (Returns response, st)
    /\ status response = 200%N
    /\ body response =
         Some (mkLoginData (LoginSession.email (req_loginSession request))
                           (LoginSession.error (req_loginSession request)))
    /\ cookie_of response = Some (req_loginSession request).
Proof.
  intros Hu. unfold run, loader. step_handler. rewrite Hu.
  eexists _, _. split; [reflexivity|]. repeat split.
Qed.

(** C10: when the [email] field is a non-empty string, storing it in the
    session is the first thing the action does, before the pattern, the
    honeypot and every collaborator; whatever path the request then takes
    (the 400 for a malformed address and the silent redirect of the honeypot
    included), the session it flushes has that address, and the loader of
    the next request, which brings that cookie back and has no signed-in
    user, returns it as the [email] of the page. *)
Theorem action_stores_email_first W request emailAddress :
  email_field request = Some (EntryString emailAddress) ->
  emailAddress <> [] ->
  exists response st rest,
    run (action W request) = (Returns response, st)
    /\ trace st = SetEmail emailAddress :: rest
    /\ LoginSession.email (session st) = Some emailAddress
    /\ cookie_of response = Some (session st)
    /\ forall W' next,
         cookie_of response = Some (req_loginSession next) ->
         getUser W' next = Returns None ->
         exists page st',
           run (loader W' next) = (Returns page, st')
           /\ status page = 200%N
           /\ option_map data_email (body page) = Some (Some emailAddress).
Proof.
  intros He Hne.
  assert (Ht : JsString.truthy emailAddress = true)
    by (destruct emailAddress; [congruence | reflexivity]).
  destruct (action_returns W request emailAddress He)
    as (code & s & calls & Hrun & _ & _ & Hstored).
  destruct (Hstored Ht) as (Hemail & rest & ->).
  eexists _, _, _. split; [exact Hrun|].
  cbn [session trace]. split; [reflexivity|]. split; [exact Hemail|].
  split; [reflexivity|].
  intros W' next Hcookie Hu.
  rewrite cookie_login_redirect in Hcookie. injection Hcookie as Hs.
  destruct (loader_anonymous W' next Hu) as (page & st' & Hpage & Hstatus & Hbody & _).
  exists page, st'. split; [exact Hpage|]. split; [exact Hstatus|].
  rewrite Hbody. cbn. rewrite <- Hs, Hemail. reflexivity.
Qed.

Lemma action_stores_email_first_witness :
  let request := post [field "email" "not-an-email"; field "password" "secret"] in
  email_field request = Some (EntryString (JsString.lit "not-an-email"))
  /\ JsString.lit "not-an-email" <> []
  /\ exists response st rest,
       run (action (quiet StatusTrue) request) = (Returns response, st)
       /\ trace st = SetEmail (JsString.lit "not-an-email") :: rest
       /\ LoginSession.email (session st) = Some (JsString.lit "not-an-email")
       /\ cookie_of response = Some (session st)
       /\ forall W' next,
            cookie_of response = Some (req_loginSession next) ->
            getUser W' next = Returns None ->
            exists page st',
              run (loader W' next) = (Returns page, st')
              /\ status page = 200%N
              /\ option_map data_email (body page)
                 = Some (Some (JsString.lit "not-an-email")).
Proof.
  cbv zeta. split; [reflexivity|]. split; [discriminate|].
  apply (action_stores_email_first (quiet StatusTrue)
           (post [field "email" "not-an-email"; field "password" "secret"])
           (JsString.lit "not-an-email")).
  - reflexivity.
  - discriminate.
Defined.

(** ** Examples of the specification *)

(** POST [{email: "a@b.com", password: ""}] with a verifier that answers
    [{status: true}]: redirect to [/login], session email [a@b.com], no
    error flashed. *)
Example post_verified_address :
  let request := post [field "email" "a@b.com"; field "password" ""] in
  exists st,
    answers (quiet StatusTrue) request 302 st
    /\ LoginSession.email (session st) = Some (JsString.lit "a@b.com")
    /\ LoginSession.error (session st) = None
    /\ trace st =
         [SetEmail (JsString.lit "a@b.com");
          CallVerifyEmailAddress (JsString.lit "a@b.com");
          CallGetDomainUrl;
          CallSendToken (JsString.lit "a@b.com") (JsString.lit "https://solofoundershub.com");
          SetMagicLink (JsString.lit "https://solofoundershub.com/magic?kodyKey=abc");
          GetHeaders].
Proof.
  cbv zeta. eexists. split.
  - eexists. split; [lazy; reflexivity|]. repeat split.
  - repeat split.
Qed.

(** POST [{email: "not-an-email", password: ""}]: 400 and the flashed error
    "A valid email is required". *)
Example post_malformed_address :
  let request := post [field "email" "not-an-email"; field "password" ""] in
  exists st,
    answers (quiet StatusTrue) request 400 st
    /\ LoginSession.error (session st) = Some (JsString.lit "A valid email is required")
    /\ trace st =
         [SetEmail (JsString.lit "not-an-email");
          FlashError (JsString.lit "A valid email is required");
          GetHeaders].
Proof.
  cbv zeta. eexists. split.
  - eexists. split; [lazy; reflexivity|]. repeat split.
  - repeat split.
Qed.

(** * Further properties of the route *)

(** ** The pattern of the address *)

(** X1: the check of the address, [/.+@.+/] searched in the string, succeeds
    exactly when the string has an [@] whose two neighbours exist and are no
    line terminators; this is what the scan computes. *)
Theorem email_pattern_found_iff_framed s :
  (Regex.Found Regex.email_pattern s <->
     exists pre x y post,
       s = pre ++ x :: JsString.at_sign :: y :: post
       /\ JsString.is_line_terminator x = false
       /\ JsString.is_line_terminator y = false)
  /\ (email_match s = true <-> Regex.Found Regex.email_pattern s).
Proof.
  split; [|apply email_match_spec].
  rewrite <- email_match_spec. split.
  - apply email_match_inv.
  - intros (pre & x & y & post & -> & Hx & Hy). now apply email_match_framed.
Qed.

(** X2: on a string without line terminators the check says exactly what
    the wording "an [@] with non-empty text on both sides" says. *)
Theorem email_match_agrees_with_wording s :
  forallb (fun c => negb (JsString.is_line_terminator c)) s = true ->
  email_match s = at_between_textb s.
Proof.
  intros Hs.
  assert (F : Forall (fun c => JsString.is_line_terminator c = false) s).
  { apply Forall_forall. intros c Hc.
    rewrite forallb_forall in Hs. apply negb_true_iff. now apply Hs. }
  destruct (email_match s) eqn:Hm.
  - symmetry. apply at_between_textb_spec. now apply email_match_at_between_text.
  - destruct (at_between_textb s) eqn:Ha; [|reflexivity].
    apply at_between_textb_spec in Ha.
    rewrite (at_between_text_email_match s F Ha) in Hm. discriminate.
Qed.

Lemma email_match_agrees_with_wording_witness :
  forallb (fun c => negb (JsString.is_line_terminator c)) (JsString.lit "a@b.com") = true
  /\ email_match (JsString.lit "a@b.com") = at_between_textb (JsString.lit "a@b.com").
Proof.
  split; [reflexivity|].
  apply (email_match_agrees_with_wording (JsString.lit "a@b.com")). reflexivity.
Defined.

(** X3: the search is not anchored: an accepted address stays accepted with
    any text before and after it, and nothing shorter than three code units
    is accepted. *)
Theorem email_match_not_anchored s pre post :
  email_match s = true ->
  email_match (pre ++ s ++ post) = true /\ 3 <= List.length s.
Proof.
  intros H. destruct (email_match_inv s H) as (p & x & y & q & -> & Hx & Hy).
  split.
  - replace (pre ++ (p ++ x :: JsString.at_sign :: y :: q) ++ post)
      with ((pre ++ p) ++ x :: JsString.at_sign :: y :: (q ++ post)).
    + now apply email_match_framed.
    + rewrite <- !app_assoc. reflexivity.
  - rewrite length_app. cbn. lia.
Qed.

Lemma email_match_not_anchored_witness :
  email_match (JsString.lit "a@b") = true
  /\ email_match (JsString.lit "mail me at " ++ JsString.lit "a@b" ++ JsString.lit " please") = true
  /\ 3 <= List.length (JsString.lit "a@b").
Proof.
  split; [reflexivity|].
  apply (email_match_not_anchored (JsString.lit "a@b")
           (JsString.lit "mail me at ") (JsString.lit " please")).
  reflexivity.
Defined.

(** ** What a run of the action did *)

Lemma filter_app_nil {A} (p : A -> bool) l1 l2 :
  filter p l1 = [] -> filter p (l1 ++ l2) = filter p l2.
Proof. intros H. rewrite filter_app, H. reflexivity. Qed.

Lemma filter_verification W email (p : Event -> bool) tail :
  (forall e, p (CallVerifyEmailAddress e) = false) ->
  (forall e, p (CallFindUnique e) = false) ->
  (forall e, p (CallGetConvertKitSubscriber e) = false) ->
  (forall m e, p (ConsoleError m e) = false) ->
  p (SetEmail email) = false ->
  filter p (((SetEmail email :: verification_calls W email)
             ++ verification_log W email) ++ tail) = filter p tail.
Proof.
  intros Hv Hd Hl Hc Hs. apply filter_app_nil.
  rewrite filter_app. cbn. rewrite Hs.
  rewrite verification_calls_only_calls by assumption.
  now rewrite verification_log_only_console.
Qed.

Ltac settle_flashed :=
  split;
  [ split; [reflexivity | eexists; split; reflexivity]
  | left; split; reflexivity ].

(** Every returning path, with what it flashed and what it set. *)
Lemma action_outcome W request emailAddress :
  email_field request = Some (EntryString emailAddress) ->
  exists code s calls,
    run (action W request) =
      (Returns (login_redirect code s), mkState s (calls ++ [GetHeaders]))
    /\ match code with
       | Some c =>
           c = 400%N
           /\ exists m,
                filter is_flash_error calls = [FlashError m]
                /\ LoginSession.error s = Some m
       | None =>
           filter is_flash_error calls = []
           /\ LoginSession.error s = LoginSession.error (req_loginSession request)
           /\ LoginSession.email s = Some emailAddress
           /\ email_match emailAddress = true
       end
    /\ (filter is_set_magic_link calls = []
        /\ LoginSession.magicLink s = LoginSession.magicLink (req_loginSession request)
        \/ code = None
           /\ exists domainUrl magicLink,
                getDomainUrl W request = Returns domainUrl
                /\ sendToken W emailAddress domainUrl = Returns magicLink
                /\ filter is_set_magic_link calls = [SetMagicLink magicLink]
                /\ LoginSession.magicLink s = Some magicLink).
Proof.
  intros He.
  destruct (email_match emailAddress) eqn:Hm.
  2:{ eexists _, _, _. rewrite (action_malformed W _ _ He Hm). cbv zeta.
      split; [reflexivity|].
      destruct (JsString.truthy emailAddress); cbn; settle_flashed. }
  destruct (entry_truthy (password_field request)) eqn:Hp.
  { eexists _, _, _. rewrite (action_honeypot W _ _ He Hm Hp).
    split; [reflexivity|]. cbn. split; [auto|]. left. auto. }
  destruct (passes_verification W emailAddress) eqn:Hpass.
  2:{ unfold passes_verification in Hpass.
      destruct (verdict W emailAddress) as [[|m]|e0] eqn:Hv; try discriminate.
      eexists _, _, _. rewrite (action_not_verified W _ _ He Hm Hp _ Hv). cbv zeta.
      split; [reflexivity|].
      rewrite !filter_app. cbn.
      rewrite !verification_calls_only_calls by reflexivity.
      settle_flashed. }
  destruct (getDomainUrl W request) as [d|e] eqn:Hd;
    [ destruct (sendToken W emailAddress d) as [link|e] eqn:Ht | ].
  - eexists _, _, _. rewrite (action_sent W _ _ He Hm Hp Hpass _ _ Hd Ht). cbv zeta.
    split; [reflexivity|].
    rewrite !filter_verification by reflexivity. cbn.
    split; [auto|]. right. split; [reflexivity|]. eauto 6.
  - eexists _, _, _. rewrite (action_not_sent W _ _ He Hm Hp Hpass _ _ Hd Ht). cbv zeta.
    split; [reflexivity|].
    rewrite !filter_verification by reflexivity. cbn.
    settle_flashed.
  - eexists _, _, _. rewrite (action_no_domain W _ _ He Hm Hp Hpass _ Hd). cbv zeta.
    split; [reflexivity|].
    rewrite !filter_verification by reflexivity. cbn.
    settle_flashed.
Qed.

(** The paths of the handler: the goal is split along the tests the handler
    makes and the run is replaced by its result on each path. *)
Ltac action_cases W request s :=
  destruct (email_field request) as [[s|]|] eqn:He;
  [ destruct (email_match s) eqn:Hm;
    [ destruct (entry_truthy (password_field request)) eqn:Hp;
      [ rewrite (action_honeypot W request s He Hm Hp)
      | destruct (passes_verification W s) eqn:Hpass;
        [ let d := fresh "domainUrl" in
          let e := fresh "e" in
          destruct (getDomainUrl W request) as [d|e] eqn:Hd;
          [ let link := fresh "magicLink" in
            let e' := fresh "e" in
            destruct (sendToken W s d) as [link|e'] eqn:Ht;
            [ rewrite (action_sent W request s He Hm Hp Hpass d link Hd Ht)
            | rewrite (action_not_sent W request s He Hm Hp Hpass d e' Hd Ht) ]
          | rewrite (action_no_domain W request s He Hm Hp Hpass e Hd) ]
        | let m := fresh "message" in
          let e := fresh "e" in
          let Hv := fresh "Hv" in
          unfold passes_verification in Hpass;
          destruct (verdict W s) as [[|m]|e] eqn:Hv; try discriminate Hpass;
          rewrite (action_not_verified W request s He Hm Hp m Hv) ] ]
    | rewrite (action_malformed W request s He Hm) ]
  | rewrite (action_not_a_string W request (or_intror He))
  | rewrite (action_not_a_string W request (or_introl He)) ];
  cbv zeta.

Lemma verification_calls_are_calls W email :
  filter is_collaborator_call (verification_calls W email) = verification_calls W email.
Proof.
  rewrite verification_calls_eq.
  destruct (verifyEmailAddress W email) as [[|m]|e]; try reflexivity.
  destruct (findUnique W email) as [[u|]|e]; reflexivity.
Qed.

Lemma verification_calls_head W email :
  exists rest, verification_calls W email = CallVerifyEmailAddress email :: rest.
Proof. rewrite verification_calls_eq. eauto. Qed.

(** X4: a token is asked for only at the end of the whole chain: if
    [sendToken] was called in a run, then it was called for the address of
    the [email] field, that address passed the pattern, the honeypot was
    empty, the verification did not answer not-verified, the domain is the
    one [getDomainUrl] returned, and the verification service had been
    called before. *)
Theorem token_only_after_verification W request emailAddress domainUrl :
  In (CallSendToken emailAddress domainUrl) (trace (snd (run (action W request)))) ->
  email_field request = Some (EntryString emailAddress)
  /\ email_match emailAddress = true
  /\ entry_truthy (password_field request) = false
  /\ passes_verification W emailAddress = true
  /\ getDomainUrl W request = Returns domainUrl
  /\ exists before after,
       trace (snd (run (action W request)))
         = before ++ CallSendToken emailAddress domainUrl :: after
       /\ In (CallVerifyEmailAddress emailAddress) before.
Proof.
  intros Hin.
  assert (Hf : In (CallSendToken emailAddress domainUrl)
                 (filter is_send_token (trace (snd (run (action W request))))))
    by (apply filter_In; split; [exact Hin | reflexivity]).
  clear Hin. revert Hf.
  action_cases W request s; cbn [snd trace];
    try match goal with
        | |- context [JsString.truthy ?x] => destruct (JsString.truthy x)
        end;
    rewrite ?filter_app; cbn [filter is_send_token app];
    rewrite ?verification_calls_only_calls by reflexivity;
    rewrite ?verification_log_only_console by reflexivity;
    cbn [app In]; try tauto.
  all: intros [E | []]; injection E as <- <-;
    repeat (split; [assumption || reflexivity|]);
    destruct (verification_calls_head W s) as (rest & Hrest);
    exists ((SetEmail s :: verification_calls W s ++ verification_log W s)
            ++ [CallGetDomainUrl]);
    match goal with
    | |- exists after, _ :: (_ ++ [_; _; ?x]) ++ [?y] = _ /\ _ => exists [x; y]
    end;
    (split; [cbn [app]; rewrite <- !app_assoc; reflexivity
            | rewrite Hrest; cbn; auto]).
Qed.

Lemma token_only_after_verification_witness :
  let request := post [field "email" "a@b.com"; field "password" ""] in
  In (CallSendToken (JsString.lit "a@b.com") (JsString.lit "https://solofoundershub.com"))
     (trace (snd (run (action (quiet StatusTrue) request))))
  /\ passes_verification (quiet StatusTrue) (JsString.lit "a@b.com") = true
  /\ entry_truthy (password_field request) = false.
Proof.
  cbv zeta.
  assert (Hin : In (CallSendToken (JsString.lit "a@b.com")
                      (JsString.lit "https://solofoundershub.com"))
                   (trace (snd (run (action (quiet StatusTrue)
                      (post [field "email" "a@b.com"; field "password" ""]))))))
    by (vm_compute; auto 6).
  split; [exact Hin|].
  destruct (token_only_after_verification _ _ _ _ Hin) as (_ & _ & Hp & Hpass & _).
  split; assumption.
Defined.

(** X5: the status tells what happened to the session.  A run that returns
    answers 400 exactly when it flashed an error, once, and that error is
    the one in the flushed session, with no magic link set; otherwise it
    answers 302, has flashed nothing and has left the [error] field as the
    cookie gave it. *)
Theorem action_status_tells_flash W request emailAddress :
  email_field request = Some (EntryString emailAddress) ->
  exists response st,
    run (action W request) = (Returns response, st)
    /\ cookie_of response = Some (session st)
    /\ (status response = 400%N
        /\ (exists m, filter is_flash_error (trace st) = [FlashError m]
                      /\ LoginSession.error (session st) = Some m)
        /\ filter is_set_magic_link (trace st) = []
        \/
        status response = 302%N
        /\ filter is_flash_error (trace st) = []
        /\ LoginSession.error (session st) = LoginSession.error (req_loginSession request)).
Proof.
  intros He.
  destruct (action_outcome W request emailAddress He)
    as (code & s & calls & Hrun & Hflash & Hlink).
  eexists _, _. split; [exact Hrun|]. split; [reflexivity|].
  cbn [session trace]. destruct code as [c|].
  - left. destruct Hflash as (-> & m & Hm & Hs). split; [reflexivity|].
    split.
    + exists m. rewrite filter_snoc_false by reflexivity. auto.
    + destruct Hlink as [[Hnone _] | [Hcode _]]; [|discriminate].
      rewrite filter_snoc_false by reflexivity. exact Hnone.
  - right. destruct Hflash as (Hnone & Herr & _). split; [reflexivity|].
    rewrite filter_snoc_false by reflexivity. auto.
Qed.

Lemma action_status_tells_flash_witness :
  let request := post [field "email" "a@b.com"; field "password" ""] in
  email_field request = Some (EntryString (JsString.lit "a@b.com"))
  /\ exists response st,
       run (action (quiet (StatusFalse (JsString.lit "no MX record"))) request)
         = (Returns response, st)
       /\ cookie_of response = Some (session st)
       /\ (status response = 400%N
           /\ (exists m, filter is_flash_error (trace st) = [FlashError m]
                         /\ LoginSession.error (session st) = Some m)
           /\ filter is_set_magic_link (trace st) = []
           \/
           status response = 302%N
           /\ filter is_flash_error (trace st) = []
           /\ LoginSession.error (session st) = None).
Proof.
  cbv zeta. split; [reflexivity|].
  apply (action_status_tells_flash
           (quiet (StatusFalse (JsString.lit "no MX record")))
           (post [field "email" "a@b.com"; field "password" ""])
           (JsString.lit "a@b.com")).
  reflexivity.
Defined.

(** Past the verification the handler always asks for the domain. *)
Lemma action_proceeds W request emailAddress :
  email_field request = Some (EntryString emailAddress) ->
  email_match emailAddress = true ->
  entry_truthy (password_field request) = false ->
  passes_verification W emailAddress = true ->
  exists response st tail,
    run (action W request) = (Returns response, st)
    /\ trace st =
         ((SetEmail emailAddress :: verification_calls W emailAddress)
          ++ verification_log W emailAddress) ++ CallGetDomainUrl :: tail.
Proof.
  intros He Hm Hp Hpass.
  destruct (getDomainUrl W request) as [d|e] eqn:Hd;
    [ destruct (sendToken W emailAddress d) as [link|e] eqn:Ht | ].
  - eexists _, _, _. rewrite (action_sent W _ _ He Hm Hp Hpass _ _ Hd Ht).
    cbv zeta. split; [reflexivity|]. cbn [trace].
    rewrite <- app_assoc. reflexivity.
  - eexists _, _, _. rewrite (action_not_sent W _ _ He Hm Hp Hpass _ _ Hd Ht).
    cbv zeta. split; [reflexivity|]. cbn [trace].
    rewrite <- app_assoc. reflexivity.
  - eexists _, _, _. rewrite (action_no_domain W _ _ He Hm Hp Hpass _ Hd).
    cbv zeta. split; [reflexivity|]. cbn [trace].
    rewrite <- app_assoc. reflexivity.
Qed.

(** X6: the first [catch] swallows whatever [isEmailVerified] throws, not
    only a failure of the verification service.  When the service reports
    not-verified and the database lookup throws, or the database knows
    nobody and the mailing-list lookup throws, the thrown value is logged
    and the handler goes on to the token; if the token is sent, the answer
    is the 302 redirect with the magic link in the session and no error
    flashed. *)
Theorem action_lookup_throw_is_fail_open W request emailAddress message e :
  email_field request = Some (EntryString emailAddress) ->
  email_match emailAddress = true ->
  entry_truthy (password_field request) = false ->
  verifyEmailAddress W emailAddress = Returns (StatusFalse message) ->
  (findUnique W emailAddress = Throws e
   \/ findUnique W emailAddress = Returns None
      /\ getConvertKitSubscriber W emailAddress = Throws e) ->
  let st := snd (run (action W request)) in
  In (ConsoleError (JsString.lit "There was an error verifying an email address:") e)
     (trace st)
  /\ In CallGetDomainUrl (trace st)
  /\ (forall domainUrl magicLink,
        getDomainUrl W request = Returns domainUrl ->
        sendToken W emailAddress domainUrl = Returns magicLink ->
        answers W request 302 st
        /\ LoginSession.magicLink (session st) = Some magicLink
        /\ filter is_flash_error (trace st) = []).
Proof.
  intros He Hm Hp Hv Hlookup. cbv zeta.
  assert (Hverdict : verdict W emailAddress = Throws e).
  { rewrite verdict_eq, Hv.
    destruct Hlookup as [-> | [-> ->]]; reflexivity. }
  assert (Hpass : passes_verification W emailAddress = true)
    by (unfold passes_verification; rewrite Hverdict; reflexivity).
  assert (Hlog : verification_log W emailAddress =
                   [ConsoleError (JsString.lit "There was an error verifying an email address:") e])
    by (unfold verification_log; rewrite Hverdict; reflexivity).
  split; [|split].
  - destruct (action_proceeds W request emailAddress He Hm Hp Hpass)
      as (response & st & tail & Hrun & Htrace).
    rewrite Hrun. cbn [snd]. rewrite Htrace, Hlog.
    apply in_or_app. left. apply in_or_app. right. left. reflexivity.
  - destruct (action_proceeds W request emailAddress He Hm Hp Hpass)
      as (response & st & tail & Hrun & Htrace).
    rewrite Hrun. cbn [snd]. rewrite Htrace.
    apply in_or_app. right. left. reflexivity.
  - intros domainUrl magicLink Hd Ht.
    pose proof (action_sent W _ _ He Hm Hp Hpass _ _ Hd Ht) as Hrun.
    cbv zeta in Hrun. rewrite Hrun. cbn [snd session trace].
    split; [exact (answers_intro _ _ _ _ _ Hrun)|]. split; [reflexivity|].
    rewrite filter_snoc_false by reflexivity.
    rewrite filter_verification by reflexivity. reflexivity.
Qed.

Lemma action_lookup_throw_is_fail_open_witness :
  let e := ThrownError (JsString.lit "connection refused") in
  let W := database_down (JsString.lit "Mailbox not found") e in
  let request := post [field "email" "a@b.com"; field "password" ""] in
  findUnique W (JsString.lit "a@b.com") = Throws e
  /\ answers W request 302 (snd (run (action W request)))
  /\ In (ConsoleError (JsString.lit "There was an error verifying an email address:") e)
       (trace (snd (run (action W request)))).
Proof.
  cbv zeta.
  pose proof (action_lookup_throw_is_fail_open
                (database_down (JsString.lit "Mailbox not found")
                   (ThrownError (JsString.lit "connection refused")))
                (post [field "email" "a@b.com"; field "password" ""])
                (JsString.lit "a@b.com") (JsString.lit "Mailbox not found")
                (ThrownError (JsString.lit "connection refused"))
                eq_refl eq_refl eq_refl eq_refl (or_introl eq_refl)) as H.
  cbv zeta in H. destruct H as (Hlog & _ & Hsent).
  split; [reflexivity|]. split; [|exact Hlog].
  apply (Hsent (JsString.lit "https://solofoundershub.com")
               (JsString.lit "https://solofoundershub.com/magic?kodyKey=abc"));
    reflexivity.
Defined.

(** X7: an address that the verification service rejects still gets its
    magic link when the database has a user with it, and the mailing list
    is then not asked; or when the database has none and the mailing list
    has a subscriber.  The collaborators are called in this order and no
    error is flashed. *)
Theorem action_known_address_gets_token
    W request emailAddress message domainUrl magicLink :
  email_field request = Some (EntryString emailAddress) ->
  email_match emailAddress = true ->
  entry_truthy (password_field request) = false ->
  verifyEmailAddress W emailAddress = Returns (StatusFalse message) ->
  getDomainUrl W request = Returns domainUrl ->
  sendToken W emailAddress domainUrl = Returns magicLink ->
  let st := snd (run (action W request)) in
  ((exists user, findUnique W emailAddress = Returns (Some user)) ->
   answers W request 302 st
   /\ LoginSession.magicLink (session st) = Some magicLink
   /\ filter is_flash_error (trace st) = []
   /\ collaborator_calls st =
        [CallVerifyEmailAddress emailAddress; CallFindUnique emailAddress;
         CallGetDomainUrl; CallSendToken emailAddress domainUrl])
  /\ (findUnique W emailAddress = Returns None ->
      (exists subscriber, getConvertKitSubscriber W emailAddress = Returns (Some subscriber)) ->
      answers W request 302 st
      /\ LoginSession.magicLink (session st) = Some magicLink
      /\ filter is_flash_error (trace st) = []
      /\ collaborator_calls st =
           [CallVerifyEmailAddress emailAddress; CallFindUnique emailAddress;
            CallGetConvertKitSubscriber emailAddress;
            CallGetDomainUrl; CallSendToken emailAddress domainUrl]).
Proof.
  intros He Hm Hp Hv Hd Ht. cbv zeta.
  assert (Hgo : verdict W emailAddress = Returns Verified ->
                forall calls, verification_calls W emailAddress = calls ->
                answers W request 302 (snd (run (action W request)))
                /\ LoginSession.magicLink (session (snd (run (action W request)))) = Some magicLink
                /\ filter is_flash_error (trace (snd (run (action W request)))) = []
                /\ collaborator_calls (snd (run (action W request))) =
                     calls ++ [CallGetDomainUrl; CallSendToken emailAddress domainUrl]).
  { intros Hverdict calls Hcalls.
    assert (Hpass : passes_verification W emailAddress = true)
      by (unfold passes_verification; rewrite Hverdict; reflexivity).
    pose proof (action_sent W _ _ He Hm Hp Hpass _ _ Hd Ht) as Hrun.
    cbv zeta in Hrun. rewrite Hrun. cbn [snd session trace].
    split; [exact (answers_intro _ _ _ _ _ Hrun)|]. split; [reflexivity|].
    split.
    - rewrite filter_snoc_false by reflexivity.
      rewrite filter_verification by reflexivity. reflexivity.
    - unfold collaborator_calls. cbn [trace].
      rewrite filter_snoc_false by reflexivity.
      unfold verification_log. rewrite Hverdict.
      rewrite !filter_app. cbn [filter is_collaborator_call app].
      rewrite verification_calls_are_calls, Hcalls, app_nil_r. reflexivity. }
  split.
  - intros [user Hu].
    apply (Hgo (eq_trans (verdict_eq W emailAddress)
                  ltac:(rewrite Hv, Hu; reflexivity))
               [CallVerifyEmailAddress emailAddress; CallFindUnique emailAddress]).
    rewrite verification_calls_eq, Hv, Hu. reflexivity.
  - intros Hnone [subscriber Hs].
    apply (Hgo (eq_trans (verdict_eq W emailAddress)
                  ltac:(rewrite Hv, Hnone, Hs; reflexivity))
               [CallVerifyEmailAddress emailAddress; CallFindUnique emailAddress;
                CallGetConvertKitSubscriber emailAddress]).
    rewrite verification_calls_eq, Hv, Hnone. reflexivity.
Qed.

Lemma action_known_address_gets_token_witness :
  let W := known_user (JsString.lit "Mailbox not found") (JsString.lit "a@b.com") in
  let request := post [field "email" "a@b.com"; field "password" ""] in
  verifyEmailAddress W (JsString.lit "a@b.com")
    = Returns (StatusFalse (JsString.lit "Mailbox not found"))
  /\ answers W request 302 (snd (run (action W request)))
  /\ collaborator_calls (snd (run (action W request))) =
       [CallVerifyEmailAddress (JsString.lit "a@b.com");
        CallFindUnique (JsString.lit "a@b.com");
        CallGetDomainUrl;
        CallSendToken (JsString.lit "a@b.com") (JsString.lit "https://solofoundershub.com")].
Proof.
  cbv zeta. split; [reflexivity|].
  pose proof (action_known_address_gets_token
                (known_user (JsString.lit "Mailbox not found") (JsString.lit "a@b.com"))
                (post [field "email" "a@b.com"; field "password" ""])
                (JsString.lit "a@b.com") (JsString.lit "Mailbox not found")
                (JsString.lit "https://solofoundershub.com")
                (JsString.lit "https://solofoundershub.com/magic?kodyKey=abc")
                eq_refl eq_refl eq_refl eq_refl eq_refl eq_refl) as H.
  cbv zeta in H. destruct H as (Hknown & _).
  destruct (Hknown (ex_intro _ (mkUserId (JsString.lit "user-1")) eq_refl))
    as (Hanswer & _ & _ & Hcalls).
  split; [exact Hanswer | exact Hcalls].
Defined.

(** X8: per request every collaborator is called at most once, and there
    are at most five calls: nothing is retried. *)
Theorem action_never_retries W request :
  let calls := collaborator_calls (snd (run (action W request))) in
  NoDup calls /\ List.length calls <= 5.
Proof.
  cbv zeta. unfold collaborator_calls.
  action_cases W request s; cbn [snd trace];
    try match goal with
        | |- context [JsString.truthy ?x] => destruct (JsString.truthy x)
        end;
    rewrite ?filter_app; cbn [filter is_collaborator_call app];
    rewrite ?verification_calls_are_calls;
    rewrite ?verification_log_only_console by reflexivity;
    rewrite ?app_nil_r;
    try (split; [constructor | cbn; lia]).
  all: rewrite verification_calls_eq.
  all: destruct (verifyEmailAddress W s) as [[|m]|e1];
         [ | destruct (findUnique W s) as [[u|]|e2] | ]; cbn [app List.length].
  all: split; [|lia].
  all: repeat (constructor; [cbn; intuition discriminate|]); constructor.
Qed.

(** X9: besides [{ verified: true }], [isEmailVerified] has two outcomes.
    It answers [{ verified: false }] only when the verification service,
    the database and the mailing list have all answered no, and the message
    is then the one of the service; it throws exactly what the first
    failing call of the chain throws. *)
Theorem isEmailVerified_other_outcomes W email st :
  (forall message,
     fst (isEmailVerified W email st) = Returns (NotVerified message) <->
     verifyEmailAddress W email = Returns (StatusFalse message)
     /\ findUnique W email = Returns None
     /\ getConvertKitSubscriber W email = Returns None)
  /\ (forall e,
        fst (isEmailVerified W email st) = Throws e <->
        verifyEmailAddress W email = Throws e
        \/ (exists message, verifyEmailAddress W email = Returns (StatusFalse message))
           /\ (findUnique W email = Throws e
               \/ findUnique W email = Returns None
                  /\ getConvertKitSubscriber W email = Throws e)).
Proof.
  rewrite isEmailVerified_run. cbn [fst]. rewrite verdict_eq.
  destruct (verifyEmailAddress W email) as [[|m]|e1];
    [ | destruct (findUnique W email) as [[u|]|e2];
        [ | destruct (getConvertKitSubscriber W email) as [[c|]|e3] | ] | ].
  all: split; intros x; split; intros H;
    repeat match goal with
      | H : exists _, _ |- _ => destruct H
      | H : _ /\ _ |- _ => destruct H
      | H : _ \/ _ |- _ => destruct H
      end;
    try discriminate; try (injection H as <-); eauto 8; try congruence.
Qed.

(** X10: the handler looks at a request only through the first [email]
    entry, the truthiness of the first [password] entry, the cookie and
    what [getDomainUrl] makes of it.  Two requests that agree on these get
    the same response, leave the same session and cause the same
    collaborator calls; all other fields and headers are ignored. *)
Theorem action_reads_only_its_fields W r1 r2 :
  email_field r1 = email_field r2 ->
  entry_truthy (password_field r1) = entry_truthy (password_field r2) ->
  getDomainUrl W r1 = getDomainUrl W r2 ->
  req_loginSession r1 = req_loginSession r2 ->
  fst (run (action W r1)) = fst (run (action W r2))
  /\ session (snd (run (action W r1))) = session (snd (run (action W r2)))
  /\ collaborator_calls (snd (run (action W r1)))
     = collaborator_calls (snd (run (action W r2))).
Proof.
  action_cases W r1 s; intros E1 E2 E3 E4;
    symmetry in E1; try symmetry in E2; try symmetry in E3.
  - rewrite (action_honeypot W r2 s E1 Hm E2), E4. repeat split.
  - rewrite (action_sent W r2 s E1 Hm E2 Hpass _ _ E3 Ht), E4. repeat split.
  - rewrite (action_not_sent W r2 s E1 Hm E2 Hpass _ _ E3 Ht), E4. repeat split.
  - rewrite (action_no_domain W r2 s E1 Hm E2 Hpass _ E3), E4. repeat split.
  - rewrite (action_not_verified W r2 s E1 Hm E2 _ Hv), E4. repeat split.
  - rewrite (action_malformed W r2 s E1 Hm), E4. repeat split.
  - rewrite (action_not_a_string W r2 (or_intror E1)), E4. repeat split.
  - rewrite (action_not_a_string W r2 (or_introl E1)), E4. repeat split.
Qed.

Lemma action_reads_only_its_fields_witness :
  let r1 := post [field "email" "a@b.com"; field "password" ""] in
  let r2 := mkRequest
              [field "utm" "newsletter"; field "email" "a@b.com";
               field "email" "other@b.com"]
              LoginSession.empty
              [(JsString.lit "User-Agent", JsString.lit "curl")] in
  email_field r1 = email_field r2
  /\ fst (run (action (quiet StatusTrue) r1)) = fst (run (action (quiet StatusTrue) r2)).
Proof.
  cbv zeta. split; [reflexivity|].
  apply (action_reads_only_its_fields (quiet StatusTrue)
           (post [field "email" "a@b.com"; field "password" ""])
           (mkRequest
              [field "utm" "newsletter"; field "email" "a@b.com";
               field "email" "other@b.com"]
              LoginSession.empty
              [(JsString.lit "User-Agent", JsString.lit "curl")]));
    reflexivity.
Defined.

(** ** The loader *)

Lemma loader_anonymous_run W request :
  getUser W request = Returns None ->
  run (loader W request) =
    (Returns
       (json (mkLoginData (LoginSession.email (req_loginSession request))
                          (LoginSession.error (req_loginSession request)))
             (mkInit None
                [ (JsString.lit "Cache-Control", Text (JsString.lit "private, max-age=3600"));
                  (JsString.lit "Vary", Text (JsString.lit "Cookie"));
                  (JsString.lit "Set-Cookie", Cookie (req_loginSession request)) ])),
     mkState (LoginSession.with_error None (req_loginSession request))
             [CallGetUser; GetHeaders]).
Proof.
  intros Hu. unfold run, loader. step_handler. rewrite Hu. reflexivity.
Qed.

(** X11: the page is rendered exactly for visitors who are not signed in.
    For a signed-in user the loader answers with the 302 redirect to [/me]
    and neither reads nor serializes the login session; when [getUser]
    throws, the loader throws the same value. *)
Theorem loader_renders_for_anonymous_only W request :
  (first_render W request <> None <-> getUser W request = Returns None)
  /\ (forall user,
        getUser W request = Returns (Some user) ->
        exists response,
          run (loader W request) = (Returns response, mkState LoginSession.empty [CallGetUser])
          /\ status response = 302%N
          /\ location_of response = Some (Text (JsString.lit "/me"))
          /\ cookie_of response = None)
  /\ (forall e,
        getUser W request = Throws e ->
        fst (run (loader W request)) = Throws e).
Proof.
  unfold first_render.
  destruct (getUser W request) as [[user|]|e] eqn:Hu.
  - split; [|split].
    + unfold run, loader. step_handler. rewrite Hu. cbn. split; congruence.
    + intros user' _. unfold run, loader. step_handler. rewrite Hu.
      eexists. split; [reflexivity|]. repeat split.
    + discriminate.
  - split; [|split]; try discriminate.
    rewrite (loader_anonymous_run W request Hu). cbn. split; congruence.
  - split; [|split]; try discriminate.
    + unfold run, loader. step_handler. rewrite Hu. cbn. split; congruence.
    + intros e' E. injection E as <-.
      unfold run, loader. step_handler. rewrite Hu. reflexivity.
Qed.

(** X12: for a visitor who is not signed in the loader answers with
    status 200, the [email] and [error] of the login session as the data of
    the page, and the headers [Cache-Control: private, max-age=3600] and
    [Vary: Cookie]; the content type is that of [json]. *)
Theorem loader_anonymous_answer W request :
  getUser W request = Returns None ->
  exists page st,
    run (loader W request) = (Returns page, st)
    /\ status page = 200%N
    /\ body page =
         Some (mkLoginData (LoginSession.email (req_loginSession request))
                           (LoginSession.error (req_loginSession request)))
    /\ headers_get (headers page) (JsString.lit "Cache-Control")
       = Some (Text (JsString.lit "private, max-age=3600"))
    /\ headers_get (headers page) (JsString.lit "Vary")
       = Some (Text (JsString.lit "Cookie"))
    /\ headers_get (headers page) (JsString.lit "Content-Type")
       = Some (Text (JsString.lit "application/json; charset=utf-8")).
Proof.
  intros Hu. eexists _, _. split; [exact (loader_anonymous_run W request Hu)|].
  repeat split.
Qed.

Lemma loader_anonymous_answer_witness :
  let request :=
    mkRequest []
      (LoginSession.mk (Some (JsString.lit "a@b.com"))
                       (Some (JsString.lit "A valid email is required")) None) [] in
  getUser (quiet StatusTrue) request = Returns None
  /\ exists page st,
       run (loader (quiet StatusTrue) request) = (Returns page, st)
       /\ status page = 200%N
       /\ body page = Some (mkLoginData (Some (JsString.lit "a@b.com"))
                              (Some (JsString.lit "A valid email is required"))).
Proof.
  cbv zeta. split; [reflexivity|].
  destruct (loader_anonymous_answer (quiet StatusTrue)
              (mkRequest []
                 (LoginSession.mk (Some (JsString.lit "a@b.com"))
                    (Some (JsString.lit "A valid email is required")) None) [])
              eq_refl)
    as (page & st & Hrun & Hstatus & Hbody & _).
  exists page, st. split; [exact Hrun|]. split; [exact Hstatus | exact Hbody].
Defined.

(** ** The page after a submission *)

Lemma first_render_anonymous W request :
  getUser W request = Returns None ->
  first_render W request =
    Some (let data := mkLoginData (LoginSession.email (req_loginSession request))
                                  (LoginSession.error (req_loginSession request)) in
          Login data (initialFormValues data)).
Proof.
  intros Hu. unfold first_render. rewrite (loader_anonymous_run W request Hu).
  reflexivity.
Qed.

(** X13: after every submission that is answered with 302, and when the
    cookie of the request carried no error, the next page says that a magic
    link has been sent to the submitted address, has the address in the
    field and announces the form as valid. *)
Theorem page_after_302_shows_sent_note W request emailAddress response st W' next :
  email_field request = Some (EntryString emailAddress) ->
  run (action W request) = (Returns response, st) ->
  status response = 302%N ->
  option_truthy (LoginSession.error (req_loginSession request)) = false ->
  cookie_of response = Some (req_loginSession next) ->
  getUser W' next = Returns None ->
  exists view,
    first_render W' next = Some view
    /\ feedback view = SentNote (JsString.lit "success-message") (sent_note emailAddress)
    /\ aria_describedby view = JsString.lit "success-message"
    /\ defaultValue view = emailAddress
    /\ aria_live view = JsString.lit "Sign in form is now valid and ready to submit".
Proof.
  intros He Hrun Hstatus Hclean Hcookie Hu.
  destruct (action_outcome W request emailAddress He)
    as (code & s & calls & Hrun' & Hflash & _).
  rewrite Hrun' in Hrun. injection Hrun as <- <-.
  destruct code as [c|].
  { destruct Hflash as (-> & _). discriminate Hstatus. }
  destruct Hflash as (_ & Herr & Hemail & Hm).
  rewrite cookie_login_redirect in Hcookie. injection Hcookie as Hs.
  rewrite (first_render_anonymous W' next Hu), <- Hs, Herr, Hemail.
  eexists. split; [reflexivity|]. unfold Login. cbn.
  rewrite Hclean, Hm, (email_match_truthy _ Hm). repeat split.
Qed.

Lemma page_after_302_shows_sent_note_witness :
  let request := post [field "email" "a@b.com"; field "password" ""] in
  let result := run (action (quiet StatusTrue) request) in
  exists response st,
    result = (Returns response, st)
    /\ status response = 302%N
    /\ exists view,
         first_render (quiet StatusTrue) (mkRequest [] (session st) []) = Some view
         /\ feedback view
            = SentNote (JsString.lit "success-message") (sent_note (JsString.lit "a@b.com")).
Proof.
  cbv zeta. eexists _, _. split; [vm_compute; reflexivity|]. split; [reflexivity|].
  destruct (page_after_302_shows_sent_note
              (quiet StatusTrue)
              (post [field "email" "a@b.com"; field "password" ""])
              (JsString.lit "a@b.com") _ _
              (quiet StatusTrue)
              (mkRequest []
                 (LoginSession.mk (Some (JsString.lit "a@b.com")) None
                    (Some (JsString.lit "https://solofoundershub.com/magic?kodyKey=abc")))
                 [])
              eq_refl eq_refl eq_refl eq_refl eq_refl eq_refl)
    as (view & Hview & Hfeedback & _).
  exists view. split; [exact Hview | exact Hfeedback].
Defined.

(** X14: a bot that fills the honeypot is shown the page of a sent link.
    With an accepted address, a filled honeypot and no error in the cookie,
    no token is asked for, and the next page still says that a magic link
    has been sent to the address. *)
Theorem honeypot_is_shown_the_sent_note W request emailAddress :
  email_field request = Some (EntryString emailAddress) ->
  email_match emailAddress = true ->
  entry_truthy (password_field request) = true ->
  option_truthy (LoginSession.error (req_loginSession request)) = false ->
  exists response st,
    run (action W request) = (Returns response, st)
    /\ filter is_send_token (trace st) = []
    /\ LoginSession.magicLink (session st) = LoginSession.magicLink (req_loginSession request)
    /\ forall W' next,
         cookie_of response = Some (req_loginSession next) ->
         getUser W' next = Returns None ->
         exists view,
           first_render W' next = Some view
           /\ feedback view
              = SentNote (JsString.lit "success-message") (sent_note emailAddress).
Proof.
  intros He Hm Hp Hclean.
  eexists _, _. split; [exact (action_honeypot W request emailAddress He Hm Hp)|].
  split; [reflexivity|]. split; [reflexivity|].
  intros W' next Hcookie Hu.
  rewrite cookie_login_redirect in Hcookie. injection Hcookie as Hs.
  rewrite (first_render_anonymous W' next Hu), <- Hs.
  eexists. split; [reflexivity|]. unfold Login. cbn.
  rewrite Hclean, (email_match_truthy _ Hm). reflexivity.
Qed.

Lemma honeypot_is_shown_the_sent_note_witness :
  let request := post [field "email" "bot@example.com"; field "password" "secret"] in
  entry_truthy (password_field request) = true
  /\ exists response st,
       run (action (quiet StatusTrue) request) = (Returns response, st)
       /\ filter is_send_token (trace st) = []
       /\ LoginSession.magicLink (session st) = None
       /\ forall W' next,
            cookie_of response = Some (req_loginSession next) ->
            getUser W' next = Returns None ->
            exists view,
              first_render W' next = Some view
              /\ feedback view
                 = SentNote (JsString.lit "success-message")
                     (sent_note (JsString.lit "bot@example.com")).
Proof.
  cbv zeta. split; [reflexivity|].
  apply (honeypot_is_shown_the_sent_note (quiet StatusTrue)
           (post [field "email" "bot@example.com"; field "password" "secret"])
           (JsString.lit "bot@example.com"));
    reflexivity.
Defined.

(** X15: after every submission that is answered with 400 the session has
    a flashed error, and when that message is not empty the next page shows
    it in the [InputError] that the field is described by; the field has
    the address of the session. *)
Theorem page_after_400_shows_error W request emailAddress response st W' next :
  email_field request = Some (EntryString emailAddress) ->
  run (action W request) = (Returns response, st) ->
  status response = 400%N ->
  cookie_of response = Some (req_loginSession next) ->
  getUser W' next = Returns None ->
  exists message view,
    LoginSession.error (session st) = Some message
    /\ In (FlashError message) (trace st)
    /\ first_render W' next = Some view
    /\ defaultValue view = or_empty (LoginSession.email (session st))
    /\ (message <> [] ->
        feedback view = InputError (JsString.lit "error-message") message
        /\ aria_describedby view = JsString.lit "error-message").
Proof.
  intros He Hrun Hstatus Hcookie Hu.
  destruct (action_outcome W request emailAddress He)
    as (code & s & calls & Hrun' & Hflash & _).
  rewrite Hrun' in Hrun. injection Hrun as <- <-.
  destruct code as [c|]; [|discriminate Hstatus].
  destruct Hflash as (_ & m & Hm & Herr).
  rewrite cookie_login_redirect in Hcookie. injection Hcookie as Hs.
  exists m. eexists. split; [exact Herr|]. split.
  { cbn [trace]. apply in_or_app. left.
    assert (Hin : In (FlashError m) (filter is_flash_error calls))
      by (rewrite Hm; left; reflexivity).
    apply filter_In in Hin. tauto. }
  rewrite (first_render_anonymous W' next Hu), <- Hs. cbn [session].
  split; [reflexivity|]. split; [reflexivity|].
  intros Hne. unfold Login. cbn. rewrite Herr. cbn.
  destruct m; [congruence|]. split; reflexivity.
Qed.

Lemma page_after_400_shows_error_witness :
  let request := post [field "email" "not-an-email"; field "password" ""] in
  exists response st,
    run (action (quiet StatusTrue) request) = (Returns response, st)
    /\ status response = 400%N
    /\ exists view,
         first_render (quiet StatusTrue) (mkRequest [] (session st) []) = Some view
         /\ feedback view
            = InputError (JsString.lit "error-message")
                (JsString.lit "A valid email is required")
         /\ defaultValue view = JsString.lit "not-an-email".
Proof.
  cbv zeta. eexists _, _. split; [vm_compute; reflexivity|]. split; [reflexivity|].
  destruct (page_after_400_shows_error
              (quiet StatusTrue)
              (post [field "email" "not-an-email"; field "password" ""])
              (JsString.lit "not-an-email") _ _
              (quiet StatusTrue)
              (mkRequest []
                 (LoginSession.mk (Some (JsString.lit "not-an-email"))
                    (Some (JsString.lit "A valid email is required")) None)
                 [])
              eq_refl eq_refl eq_refl eq_refl eq_refl)
    as (message & view & Herr & _ & Hview & Hvalue & Hshown).
  injection Herr as <-.
  exists view. split; [exact Hview|]. split; [|exact Hvalue].
  apply Hshown. discriminate.
Defined.

(** X16: the page tests the error for truthiness, so a failure whose
    message is the empty string is not shown.  When the token generation or
    sending throws something whose error message is empty, the answer is
    the 400 redirect, and the next page says that a magic link has been
    sent to the address. *)
Theorem token_failure_without_message_looks_sent W request emailAddress e :
  email_field request = Some (EntryString emailAddress) ->
  email_match emailAddress = true ->
  entry_truthy (password_field request) = false ->
  passes_verification W emailAddress = true ->
  (getDomainUrl W request = Throws e
   \/ exists domainUrl,
        getDomainUrl W request = Returns domainUrl
        /\ sendToken W emailAddress domainUrl = Throws e) ->
  getErrorMessage W e = [] ->
  exists response st,
    run (action W request) = (Returns response, st)
    /\ status response = 400%N
    /\ LoginSession.error (session st) = Some []
    /\ forall W' next,
         cookie_of response = Some (req_loginSession next) ->
         getUser W' next = Returns None ->
         exists view,
           first_render W' next = Some view
           /\ feedback view
              = SentNote (JsString.lit "success-message") (sent_note emailAddress).
Proof.
  intros He Hm Hp Hpass Hfail Hmsg.
  assert (Hrun : exists calls,
             run (action W request) =
               (Returns (login_redirect (Some 400%N)
                  (LoginSession.with_error (Some [])
                     (LoginSession.with_email emailAddress (req_loginSession request)))),
                mkState
                  (LoginSession.with_error (Some [])
                     (LoginSession.with_email emailAddress (req_loginSession request)))
                  calls)).
  { destruct Hfail as [Hd | (domainUrl & Hd & Ht)].
    - eexists. rewrite (action_no_domain W _ _ He Hm Hp Hpass _ Hd), Hmsg. reflexivity.
    - eexists. rewrite (action_not_sent W _ _ He Hm Hp Hpass _ _ Hd Ht), Hmsg.
      reflexivity. }
  destruct Hrun as (calls & Hrun).
  eexists _, _. split; [exact Hrun|]. split; [reflexivity|]. split; [reflexivity|].
  intros W' next Hcookie Hu.
  rewrite cookie_login_redirect in Hcookie. injection Hcookie as Hs.
  rewrite (first_render_anonymous W' next Hu), <- Hs.
  eexists. split; [reflexivity|]. unfold Login. cbn.
  rewrite (email_match_truthy _ Hm). reflexivity.
Qed.

Lemma token_failure_without_message_looks_sent_witness :
  let W := no_mail (ThrownError []) in
  let request := post [field "email" "a@b.com"; field "password" ""] in
  getErrorMessage W (ThrownError []) = []
  /\ exists response st,
       run (action W request) = (Returns response, st)
       /\ status response = 400%N
       /\ LoginSession.error (session st) = Some []
       /\ forall W' next,
            cookie_of response = Some (req_loginSession next) ->
            getUser W' next = Returns None ->
            exists view,
              first_render W' next = Some view
              /\ feedback view
                 = SentNote (JsString.lit "success-message")
                     (sent_note (JsString.lit "a@b.com")).
Proof.
  cbv zeta. split; [reflexivity|].
  apply (token_failure_without_message_looks_sent
           (no_mail (ThrownError []))
           (post [field "email" "a@b.com"; field "password" ""])
           (JsString.lit "a@b.com") (ThrownError []));
    try reflexivity.
  right. exists (JsString.lit "https://solofoundershub.com"). split; reflexivity.
Defined.

(** ** The component *)

(** X17: the field is described by the element of the feedback exactly when
    that element is rendered, that is when there is an error or an address
    to show; on a first visit, with neither, it is described by
    [success-message] while the component renders no element of that id. *)
Theorem describedby_names_feedback data formValues :
  let view := Login data formValues in
  (feedback_id (feedback view) = Some (aria_describedby view) <->
     option_truthy (data_error data) = true \/ option_truthy (data_email data) = true)
  /\ (option_truthy (data_error data) = false ->
      option_truthy (data_email data) = false ->
      feedback view = NoFeedback
      /\ aria_describedby view = JsString.lit "success-message").
Proof.
  cbv zeta. unfold Login. cbn.
  destruct (option_truthy (data_error data)), (option_truthy (data_email data)); cbn;
    (split; [split; [auto; discriminate | reflexivity || (intros [H | H]; discriminate H)]
            | intros; try discriminate; split; reflexivity]).
Qed.

(** X18: the page and the server test the address with the same pattern.
    With an empty honeypot, the form announces itself as valid for what was
    typed exactly when the action, given that text, goes on to call the
    verification service instead of answering "A valid email is
    required". *)
Theorem form_validity_is_the_servers W request typed data :
  email_field request = Some (EntryString typed) ->
  entry_truthy (password_field request) = false ->
  let view := Login data (setFormValues (Change typed) (initialFormValues data)) in
  aria_live view = JsString.lit "Sign in form is now valid and ready to submit"
  <-> In (CallVerifyEmailAddress typed) (trace (snd (run (action W request)))).
Proof.
  intros He Hp. cbv zeta. unfold Login. cbn [aria_live setFormValues fv_email].
  destruct (email_match typed) eqn:Hm.
  - split; [intros _ | reflexivity].
    destruct (verification_calls_head W typed) as (rest & Hrest).
    destruct (passes_verification W typed) eqn:Hpass.
    + destruct (action_proceeds W request typed He Hm Hp Hpass)
        as (response & st & tail & Hrun & Htrace).
      rewrite Hrun. cbn [snd]. rewrite Htrace, Hrest. cbn. auto.
    + unfold passes_verification in Hpass.
      destruct (verdict W typed) as [[|m]|e] eqn:Hv; try discriminate.
      rewrite (action_not_verified W request typed He Hm Hp m Hv).
      cbn [snd trace]. rewrite Hrest. cbn. auto.
  - split; [discriminate|].
    rewrite (action_malformed W request typed He Hm). cbn [snd trace].
    destruct (JsString.truthy typed); cbn; intuition discriminate.
Qed.

Lemma form_validity_is_the_servers_witness :
  let request := post [field "email" "a@b.com"; field "password" ""] in
  let data := mkLoginData None None in
  entry_truthy (password_field request) = false
  /\ (aria_live (Login data (setFormValues (Change (JsString.lit "a@b.com"))
                              (initialFormValues data)))
      = JsString.lit "Sign in form is now valid and ready to submit"
      <-> In (CallVerifyEmailAddress (JsString.lit "a@b.com"))
             (trace (snd (run (action (quiet StatusTrue) request))))).
Proof.
  cbv zeta. split; [reflexivity|].
  apply (form_validity_is_the_servers (quiet StatusTrue)
           (post [field "email" "a@b.com"; field "password" ""])
           (JsString.lit "a@b.com") (mkLoginData None None));
    reflexivity.
Defined.
